(** * The transcription engine of obsidian-transcription

    A shallow embedding of [src/transcribe.ts]: the segment formatter, the
    dispatcher [getTranscription], the create-then-poll adapter
    [getTranscriptionSwiftink] and the event-driven adapter
    [getTranscriptionAzure], followed by the properties the specification
    states about them.

    Conventions.  JavaScript strings are Rocq strings whose characters are
    code units below 256.  Promises are modelled by their outcome together
    with the trace of effects (console output, notices, HTTP requests, timed
    waits, SDK calls) performed on the way. *)

From Stdlib Require Import String Ascii List ZArith Lia Bool Arith.
Import ListNotations.

Local Open Scope string_scope.
Local Open Scope list_scope.

Infix "+++" := String.append (at level 60, right associativity).

(** The line feed that ends each formatted segment. *)
Definition nl : string := String (ascii_of_nat 10) EmptyString.

(* ===================================================================== *)
(** * Part I: the model *)
(* ===================================================================== *)

(** ** The host: [Date] and date-fns [format]

    [Date] is a JavaScript built-in and [format] comes from the date-fns
    package; neither is code of the repository, so the embedding takes them
    as an interface.  [format] returns a string or throws: date-fns refuses
    an invalid date and a pattern with a letter it has no token for.
    [number] stands for JavaScript numbers. *)

(** What a call that may throw gives: its value, or the exception. *)
Inductive Try (A : Type) : Type :=
| Gives (value : A)
| Throws (error : string).
Arguments Gives {A} value.
Arguments Throws {A} error.

Class DateHost : Type := {
  number : Type;
  num_lit : Z -> number;                        (* numeric literals *)
  num_mul : number -> number -> number;         (* [*] *)
  num_add : number -> number -> number;         (* [+] on numbers *)
  Date : Type;
  new_Date : number -> Date;                    (* [new Date(ms)] *)
  getTime : Date -> number;
  getTimezoneOffset : Date -> number;           (* minutes, host zone *)
  format : Date -> string -> Try string         (* date-fns *)
}.

(** ** Data *)

(** Modelled from the spec: [components['schemas']['TimestampedTextSegment']]
    of [./types/swiftink], which is not among the sources.  The spec gives a
    segment a start and an end in seconds and a text; these are the fields
    the formatter reads. *)
Record TimestampedTextSegment `{DateHost} : Type := {
  seg_start : number;
  seg_end : number;
  seg_text : string
}.

(** Modelled from the spec: the body of [GET /transcripts/{id}], declared in
    [./types/swiftink], which is not among the sources.  The spec gives it a
    status and an optional text and segment list; the status is kept as the
    string the loop compares, and [None] is [undefined].  A field that is
    present holds a string or a list of segments; a JSON [null] is not
    represented. *)
Record Transcription `{DateHost} : Type := {
  status : string;
  text : option string;
  text_segments : option (list TimestampedTextSegment)
}.

(** Modelled from the spec: [TranscriptionSettings] of [src/main], which is
    not among the sources; the configuration the spec lists, under the names
    [transcribe.ts] reads it by. *)
Record TranscriptionSettings : Type := {
  debug : bool;
  verbosity : Z;
  dev : bool;
  translate : bool;
  timestamps : bool;
  timestampFormat : string;
  transcription_engine : string;
  swiftinkToken : string;
  whisperASRUrl : string;
  azureKey : string;
  azureRegion : string;
  azureLang : string
}.

(** A [TFile] is an opaque handle; its path identifies it. *)
Definition TFile : Type := string.

(** ** Segment formatter *)

Section Formatter.
Context `{DateHost}.

(** [new Date(d.getTime() + d.getTimezoneOffset() * 60000)] *)
Definition shift_to_utc (d : Date) : Date :=
  new_Date (num_add (getTime d) (num_mul (getTimezoneOffset d) (num_lit 60000))).

(** The body of the [for] loop: the value of [segment_string], unless one of
    the two calls of [format] throws, the start's first. *)
Definition segment_string (timestampFormat : string)
           (segment : TimestampedTextSegment) : Try string :=
  let start := new_Date (num_mul (seg_start segment) (num_lit 1000)) in
  let end_ := new_Date (num_mul (seg_end segment) (num_lit 1000)) in
  let start := shift_to_utc start in
  let end_ := shift_to_utc end_ in
  match format start timestampFormat with
  | Throws e => Throws e
  | Gives start_formatted =>
    match format end_ timestampFormat with
    | Throws e => Throws e
    | Gives end_formatted =>
      Gives (start_formatted +++ " - " +++ end_formatted +++ ": "
             +++ seg_text segment +++ nl)
    end
  end.

(** The [for] loop from a given value of [transcription]: it grows by one
    [segment_string] per iteration, in iteration order; an exception leaves
    the loop and the function. *)
Fixpoint format_segments (timestampFormat : string)
         (segments : list TimestampedTextSegment) (transcription : string)
  : Try string :=
  match segments with
  | [] => Gives transcription
  | segment :: rest =>
    match segment_string timestampFormat segment with
    | Throws e => Throws e
    | Gives segment_string =>
      format_segments timestampFormat rest (transcription +++ segment_string)
    end
  end.

(** [transcription] starts empty. *)
Definition segmentsToTimestampedString
           (segments : list TimestampedTextSegment)
           (timestampFormat : string) : Try string :=
  format_segments timestampFormat segments "".

End Formatter.

(** ** Effects, rejections and outcomes *)

(** What a promise is rejected with. *)
Inductive Rejection : Type :=
| RejString (message : string)      (* [Promise.reject('...')] *)
| RejTypeError                      (* a [TypeError] raised by the runtime;
                                       its message depends on the engine *)
| RejRaised (error : string)        (* a collaborator raised it: an awaited
                                       promise, or [format] *)
| RejCanceled (errorDetails : string). (* the SDK's cancellation event *)

(** The state a promise is observed in. *)
Inductive Outcome : Type :=
| Resolved (transcription : string)
| Rejected (reason : Rejection)
| Pending.

(** What a log call prints. *)
Inductive LogArg : Type :=
| LStr (s : string)
| LObject                           (* a response object *)
| LElapsed (ms : Z).                (* [`Transcription took ${...} ms`] *)

Inductive Effect : Type :=
| ConsoleLog (a : LogArg)
| ConsoleError (s : string)
| DisplayMessage (message : string) (ms : Z) (force : bool)
| NewNotice (message : string) (ms : Z)
| HttpPost (url token : string) (translate_flag : bool)
| HttpGet (url token : string)
| SleepMs (ms : Z)
| CreateRecognizer (autodetect : list string) (language : option string)
| StartContinuousRecognition
| StopContinuousRecognition
| CallResolve (value : string)
| CallReject (reason : Rejection)
| Notify (o : Outcome).             (* the awaiting caller is resumed *)

(** A finished run of an adapter: what it did and how its promise ended. *)
Definition Run : Type := list Effect * Outcome.

(** What [await] gives on a collaborator's promise ([requestUrl(...).json],
    [vault.readBinary], [getWaveBlob]): its value, or the error it raised. *)
Inductive Awaited (A : Type) : Type :=
| Arrived (value : A)
| Raised (error : string).
Arguments Arrived {A} value.
Arguments Raised {A} error.

(** The engine object: its settings and whether a status bar is attached
    ([status_bar !== null]). *)
Record TranscriptionEngine : Type := {
  settings : TranscriptionSettings;
  has_status_bar : bool
}.

(** ** A small monad for [async] bodies

    An [async] body threads the world (the replies consumed so far and the
    trace) and either returns, throws, or runs out of the fuel that bounds
    the model's [while (true)]. *)

Inductive Completion (A : Type) : Type :=
| Returned (a : A)
| Thrown (r : Rejection)
| OutOfFuel.
Arguments Returned {A} a.
Arguments Thrown {A} r.
Arguments OutOfFuel {A}.

Record World : Type := {
  polls : nat;                        (* status requests answered so far *)
  trace : list Effect
}.

Definition Async (A : Type) : Type := World -> Completion A * World.

Definition ret {A} (a : A) : Async A := fun w => (Returned a, w).

Definition bind {A B} (c : Async A) (k : A -> Async B) : Async B :=
  fun w =>
    match c w with
    | (Returned a, w') => k a w'
    | (Thrown r, w') => (Thrown r, w')
    | (OutOfFuel, w') => (OutOfFuel, w')
    end.

Declare Scope async_scope.
Delimit Scope async_scope with async.
Notation "x <- c ;; k" := (bind c (fun x => k))
  (at level 61, c at next level, right associativity) : async_scope.
Notation "c ;; k" := (bind c (fun _ => k))
  (at level 61, right associativity) : async_scope.

Definition perform (e : Effect) : Async unit :=
  fun w => (Returned tt, {| polls := polls w; trace := trace w ++ [e] |}).

Definition reject {A} (r : Rejection) : Async A := fun w => (Thrown r, w).

Definition out_of_fuel {A} : Async A := fun w => (OutOfFuel, w).

Definition when (b : bool) (c : Async unit) : Async unit :=
  if b then c else ret tt.

Definition sleep (ms : Z) : Async unit := perform (SleepMs ms).

Definition initial_world : World := {| polls := 0; trace := [] |}.

(** The promise an [async] body returns, seen from outside.  A body that
    never leaves its loop is a promise that never settles. *)
Definition run_async (c : Async string) : Run :=
  match c initial_world with
  | (Returned s, w) => (trace w, Resolved s)
  | (Thrown r, w) => (trace w, Rejected r)
  | (OutOfFuel, w) => (trace w, Pending)
  end.

(** ** The create-then-poll adapter *)

(** The remote service as the adapter meets it: the reply to the creation
    request (the job's [id]) and the reply to the [k]-th status request,
    counted from 0. *)
Record Remote `{DateHost} : Type := {
  create_reply : Awaited string;
  poll_reply : nat -> Awaited Transcription
}.

Definition max_tries : Z := 200.
Definition sleep_time : Z := 3000.

Definition took_too_long : string := "Swiftink took too long to transcribe the file".
Definition failed_to_transcribe : string := "Swiftink failed to transcribe the file".
Definition invalid_file : string := "Swiftink has detected an invalid file".

Section Swiftink.
Context `{DateHost}.
Variable this : TranscriptionEngine.
Variable remote : Remote.

Local Open Scope async_scope.

(** [await requestUrl(create_transcription_request).json] *)
Definition requestUrl_post (url token : string) (translate_flag : bool) : Async string :=
  fun w =>
    let w' := {| polls := polls w;
                 trace := trace w ++ [HttpPost url token translate_flag] |} in
    match create_reply remote with
    | Arrived id => (Returned id, w')
    | Raised e => (Thrown (RejRaised e), w')
    end.

(** [await requestUrl(get_transcription_request).json] *)
Definition requestUrl_get (url token : string) : Async Transcription :=
  fun w =>
    let w' := {| polls := S (polls w);
                 trace := trace w ++ [HttpGet url token] |} in
    match poll_reply remote (polls w) with
    | Arrived transcription => (Returned transcription, w')
    | Raised e => (Thrown (RejRaised e), w')
    end.

(** The progress message: on the status bar when there is one, as a notice
    otherwise. *)
Definition announce (bar_message : string) (bar_ms : Z) (force : bool)
           (notice_message : string) (notice_ms : Z) : Async unit :=
  when (1 <=? verbosity (settings this))%Z
       (if has_status_bar this
        then perform (DisplayMessage bar_message bar_ms force)
        else perform (NewNotice notice_message notice_ms)).

(** The [while (true)] loop.  [fuel] bounds the iterations of the model;
    [tries] is the loop's counter. *)
Fixpoint poll_loop (fuel : nat) (url : string) (tries : Z) : Async string :=
  match fuel with
  | O => out_of_fuel
  | S fuel' =>
    transcription <- requestUrl_get url (swiftinkToken (settings this)) ;;
    when (debug (settings this)) (perform (ConsoleLog LObject)) ;;
    match (status transcription =? "complete")%string,
          text_segments transcription,
          text transcription with
    | true, Some segments, Some txt =>
      when (debug (settings this))
           (perform (ConsoleLog (LStr "Swiftink finished transcribing"))) ;;
      announce "100% - Complete!" 3000 true "Swiftink finished transcribing" 3000 ;;
      if timestamps (settings this)
      then match segmentsToTimestampedString segments
                   (timestampFormat (settings this)) with
           | Gives transcription => ret transcription
           | Throws e => reject (RejRaised e)
           end
      else ret txt
    | _, _, _ =>
      if (max_tries <? tries)%Z then
        when (debug (settings this)) (perform (ConsoleError took_too_long)) ;;
        reject (RejString took_too_long)
      else if (status transcription =? "failed")%string then
        when (debug (settings this)) (perform (ConsoleError failed_to_transcribe)) ;;
        reject (RejString failed_to_transcribe)
      else if (status transcription =? "validation_failed")%string then
        when (debug (settings this)) (perform (ConsoleError invalid_file)) ;;
        reject (RejString invalid_file)
      else
        sleep sleep_time ;;
        poll_loop fuel' url (tries + 1)%Z
    end
  end.

(** The loop leaves by the time [tries] has passed [max_tries], so this many
    iterations are enough (see [poll_loop_total]). *)
Definition poll_budget : nat := S (S (Z.to_nat max_tries)).

Definition getTranscriptionSwiftink (file : TFile) : Async string :=
  let api_base :=
    if dev (settings this) then "https://example.com" else "https://api.swiftink.io" in
  create_transcription_response <-
    requestUrl_post (api_base +++ "/transcripts/")
                    (swiftinkToken (settings this)) (translate (settings this)) ;;
  when (debug (settings this)) (perform (ConsoleLog LObject)) ;;
  when (debug (settings this))
       (perform (ConsoleLog (LStr "Uploading file to Swiftink..."))) ;;
  announce "Uploading..." 5000 false "Uploading file to Swiftink..." 3000 ;;
  when (debug (settings this))
       (perform (ConsoleLog (LStr "Waiting for Swiftink to finish transcribing..."))) ;;
  poll_loop poll_budget
            (api_base +++ "/transcripts/" +++ create_transcription_response) 0%Z.

(** The adapter as the dispatcher sees it. *)
Definition swiftink_run (file : TFile) : Run :=
  run_async (getTranscriptionSwiftink file).

End Swiftink.

(** The status requests among the effects of a run. *)
Definition is_status_request (e : Effect) : bool :=
  match e with HttpGet _ _ => true | _ => false end.

Definition status_requests (tr : list Effect) : nat :=
  length (filter is_status_request tr).

(** A world one status request later. *)
Definition one_request_later (w w' : World) : Prop :=
  polls w' = S (polls w)
  /\ status_requests (trace w') = S (status_requests (trace w)).

(** ** The event-driven adapter *)

(** [String.prototype.trim] on code units below 256: TAB, LF, VT, FF, CR,
    SP and NBSP are white space or line terminators. *)
Definition is_white_space (c : ascii) : bool :=
  let n := nat_of_ascii c in
  ((n =? 9) || (n =? 10) || (n =? 11) || (n =? 12) || (n =? 13)
   || (n =? 32) || (n =? 160))%nat.

Fixpoint trim_start (s : string) : string :=
  match s with
  | EmptyString => EmptyString
  | String c rest => if is_white_space c then trim_start rest else s
  end.

Fixpoint trim_end (s : string) : string :=
  match s with
  | EmptyString => EmptyString
  | String c rest =>
    match trim_end rest with
    | EmptyString => if is_white_space c then EmptyString else String c EmptyString
    | kept => String c kept
    end
  end.

Definition trim (s : string) : string := trim_end (trim_start s).

(** [sdk.ResultReason] and [sdk.CancellationReason], as far as the handlers
    tell their members apart. *)
Inductive ResultReason : Type :=
| NoMatch
| Canceled
| RecognizingSpeech
| RecognizedSpeech
| OtherResultReason.

Inductive CancellationReason : Type :=
| Error
| EndOfStream
| CancelledByUser.

(** The callbacks the SDK fires, with the fields the handlers read. *)
Inductive SdkEvent : Type :=
| OnRecognized (reason : ResultReason) (result_text : string)
| OnCanceled (reason : CancellationReason) (errorDetails : string)
| OnSessionStopped.

(** What reading the file and converting it to WAV gives, and the events the
    SDK then fires, in order. *)
Record SpeechService : Type := {
  wav_ready : Awaited unit;
  fired : list SdkEvent
}.

Inductive PromiseState : Type :=
| Unsettled
| Fulfilled (value : string)
| Broken (reason : Rejection).

(** The closure of the promise executor: the accumulator [text], the promise
    and whether its awaiting caller has been resumed, and the effects so
    far. *)
Record Session : Type := {
  heard : string;                     (* the variable [text] *)
  promise : PromiseState;
  notified : bool;
  effects : list Effect
}.

Definition log_effect (e : Effect) (s : Session) : Session :=
  {| heard := heard s; promise := promise s; notified := notified s;
     effects := effects s ++ [e] |}.

(** [resolve(v)]: settles the promise if it is not settled yet. *)
Definition resolve (v : string) (s : Session) : Session :=
  let s := log_effect (CallResolve v) s in
  match promise s with
  | Unsettled => {| heard := heard s; promise := Fulfilled v;
                    notified := notified s; effects := effects s |}
  | _ => s
  end.

(** [reject(e)]: likewise. *)
Definition reject_with (r : Rejection) (s : Session) : Session :=
  let s := log_effect (CallReject r) s in
  match promise s with
  | Unsettled => {| heard := heard s; promise := Broken r;
                    notified := notified s; effects := effects s |}
  | _ => s
  end.

Definition stopContinuousRecognitionAsync (s : Session) : Session :=
  log_effect StopContinuousRecognition s.

(** [recognizer.recognized] *)
Definition recognized (reason : ResultReason) (result_text : string)
           (s : Session) : Session :=
  match reason with
  | RecognizedSpeech =>
    {| heard := heard s +++ " " +++ result_text; promise := promise s;
       notified := notified s; effects := effects s |}
  | NoMatch => resolve (trim (heard s)) s
  | _ => s
  end.

(** [recognizer.canceled] *)
Definition canceled (reason : CancellationReason) (errorDetails : string)
           (s : Session) : Session :=
  let s := match reason with
           | Error => reject_with (RejCanceled errorDetails) s
           | _ => s
           end in
  stopContinuousRecognitionAsync s.

(** [recognizer.sessionStopped] *)
Definition sessionStopped (s : Session) : Session :=
  let s := resolve (trim (heard s)) s in
  stopContinuousRecognitionAsync s.

Definition handler (ev : SdkEvent) : Session -> Session :=
  match ev with
  | OnRecognized reason result_text => recognized reason result_text
  | OnCanceled reason errorDetails => canceled reason errorDetails
  | OnSessionStopped => sessionStopped
  end.

Definition outcome_of (p : PromiseState) : Outcome :=
  match p with
  | Unsettled => Pending
  | Fulfilled v => Resolved v
  | Broken r => Rejected r
  end.

(** Once a callback has run to its end, the promise's reactions run: a
    caller awaiting a promise settled by now is resumed, once. *)
Definition run_reactions (s : Session) : Session :=
  match promise s, notified s with
  | Unsettled, _ => s
  | _, true => s
  | p, false =>
    {| heard := heard s; promise := p; notified := true;
       effects := effects s ++ [Notify (outcome_of p)] |}
  end.

(** One callback, run to completion, then the reactions. *)
Definition fire (s : Session) (ev : SdkEvent) : Session :=
  run_reactions (handler ev s).

Definition feed (events : list SdkEvent) (s : Session) : Session :=
  fold_left fire events s.

Section Azure.
Variable this : TranscriptionEngine.
Variable service : SpeechService.

(** The recognizer the immediately-invoked arrow function builds. *)
Definition make_recognizer : Effect :=
  if (azureLang (settings this) =? "auto")%string
  then CreateRecognizer ["en-US"; "uk-UA"] None
  else CreateRecognizer [] (Some (azureLang (settings this))).

(** The session when the executor has returned: handlers installed, [text]
    empty, recognition started. *)
Definition session_started : Session :=
  {| heard := ""; promise := Unsettled; notified := false;
     effects := [make_recognizer; StartContinuousRecognition] |}.

Definition azure_session : Session := feed (fired service) session_started.

Definition getTranscriptionAzure (file : TFile) : Run :=
  match wav_ready service with
  | Raised e => ([], Rejected (RejRaised e))
  | Arrived _ => (effects azure_session, outcome_of (promise azure_session))
  end.

End Azure.

Definition is_stop (e : Effect) : bool :=
  match e with StopContinuousRecognition => true | _ => false end.

Definition is_settle_call (e : Effect) : bool :=
  match e with CallResolve _ | CallReject _ => true | _ => false end.

Definition is_notify (e : Effect) : bool :=
  match e with Notify _ => true | _ => false end.

(** How often the session was asked to stop. *)
Definition stops (tr : list Effect) : nat := length (filter is_stop tr).

(** The events whose handler calls [resolve] or [reject]. *)
Definition settles (ev : SdkEvent) : bool :=
  match ev with
  | OnRecognized NoMatch _ => true
  | OnCanceled Error _ => true
  | OnSessionStopped => true
  | _ => false
  end.

(** ** The dispatcher *)

Inductive Backend : Type :=
| Swiftink
| WhisperASR
| AzureSpeech.

(** The object literal [transcription_engines]: its own keys, in order. *)
Definition transcription_engines : list (string * Backend) :=
  [ ("swiftink", Swiftink);
    ("whisper_asr", WhisperASR);
    ("azure_speech_service", AzureSpeech) ].

(** What an object literal inherits from [Object.prototype]. *)
Definition object_prototype_properties : list string :=
  [ "constructor"; "toString"; "toLocaleString"; "valueOf";
    "hasOwnProperty"; "isPrototypeOf"; "propertyIsEnumerable"; "__proto__";
    "__defineGetter__"; "__defineSetter__";
    "__lookupGetter__"; "__lookupSetter__" ].

(** The value of [transcription_engines[key]]. *)
Inductive JsValue : Type :=
| VUndefined
| VMethod (b : Backend)               (* one of the three adapter methods *)
| VInherited (name : string).         (* a member of [Object.prototype] *)

Fixpoint own_property (table : list (string * Backend)) (key : string)
  : option Backend :=
  match table with
  | [] => None
  | (k, b) :: rest => if (k =? key)%string then Some b else own_property rest key
  end.

Definition get_property (key : string) : JsValue :=
  match own_property transcription_engines key with
  | Some b => VMethod b
  | None =>
    if existsb (String.eqb key) object_prototype_properties
    then VInherited key
    else VUndefined
  end.

Section Dispatcher.
Variable this : TranscriptionEngine.
(** How each adapter method runs on a file. *)
Variable methods : Backend -> TFile -> Run.
(** The difference of the two clock readings. *)
Variable elapsed : Z.

(** [getTranscription].  Looking up a key that names no adapter gives
    [undefined] or a member of [Object.prototype]; calling that as an adapter
    and chaining [.then] on the result raises a [TypeError] inside the
    [async] body, so the returned promise is rejected with it.  The
    assignment to [this.transcriptionEngine] is read back at once and by
    nothing else, and is left out. *)
Definition getTranscription (file : TFile) : Run :=
  let engine := transcription_engine (settings this) in
  let before :=
    if debug (settings this)
    then [ConsoleLog (LStr ("Transcription engine: " +++ engine))]
    else [] in
  match get_property engine with
  | VMethod b =>
    match methods b file with
    | (did, Resolved transcription) =>
      (before ++ did ++
         (if debug (settings this)
          then [ConsoleLog (LStr ("Transcription: " +++ transcription));
                ConsoleLog (LElapsed elapsed)]
          else []),
       Resolved transcription)
    | (did, Rejected r) => (before ++ did, Rejected r)
    | (did, Pending) => (before ++ did, Pending)
    end
  | VUndefined | VInherited _ => (before, Rejected RejTypeError)
  end.

End Dispatcher.

(** The methods the registry refers to.  [getTranscriptionWhisperASR] is not
    modelled; its runs are taken as given. *)
Definition engine_methods `{DateHost} (this : TranscriptionEngine)
           (remote : Remote) (service : SpeechService)
           (whisper : TFile -> Run) (b : Backend) : TFile -> Run :=
  match b with
  | Swiftink => swiftink_run this remote
  | WhisperASR => whisper
  | AzureSpeech => getTranscriptionAzure this service
  end.

(** Effects that only report, and never decide anything. *)
Definition is_diagnostic (e : Effect) : bool :=
  match e with ConsoleLog _ | ConsoleError _ => true | _ => false end.

(** ** The specification's vocabulary *)

(** The loop's first test: a complete job that carries both fields. *)
Definition is_success `{DateHost} (t : Transcription) : bool :=
  match (status t =? "complete")%string, text_segments t, text t with
  | true, Some _, Some _ => true
  | _, _, _ => false
  end.

(** What the spec calls a terminal status: that success, or one of the two
    failures the service reports. *)
Definition is_terminal `{DateHost} (t : Transcription) : bool :=
  is_success t || (status t =? "failed")%string
  || (status t =? "validation_failed")%string.

(** The first [n] status replies arrive and none is terminal. *)
Definition waiting_for `{DateHost} (remote : Remote) (n : nat) : Prop :=
  forall k, (k < n)%nat ->
    exists t, poll_reply remote k = Arrived t /\ is_terminal t = false.

(** Follows the spec's words: a clear, identifiable failure is a rejection
    the dispatcher raises on purpose, with a message of its own, as opposed
    to the runtime's [TypeError], which is how an unhandled programming
    error surfaces from an [async] function. *)
Definition identifiable_failure (o : Outcome) : Prop :=
  match o with
  | Rejected (RejString _) => True
  | _ => False
  end.

(** ** A concrete host for running the model

    Whole numbers, a clock [offset_minutes] behind UTC, and a [format] that
    renders the tokens [HH], [mm] and [ss] of the host's wall-clock time,
    copies every character that is not a letter and, as date-fns does for a
    letter it has no token for, throws on any other letter. *)

Definition is_latin_letter (c : ascii) : bool :=
  let n := nat_of_ascii c in
  (((65 <=? n) && (n <=? 90)) || ((97 <=? n) && (n <=? 122)))%nat.

Definition unescaped_letter : string :=
  "Format string contains an unescaped latin alphabet character".

Definition rendered_after (front : string) (rest : Try string) : Try string :=
  match rest with
  | Gives back => Gives (front +++ back)
  | Throws e => Throws e
  end.

Definition two_digits (n : Z) : string :=
  String (ascii_of_nat (48 + Z.to_nat ((n / 10) mod 10)))
         (String (ascii_of_nat (48 + Z.to_nat (n mod 10))) EmptyString).

Fixpoint render (ms : Z) (pattern : string) : Try string :=
  match pattern with
  | EmptyString => Gives EmptyString
  | String c tail =>
    match tail with
    | EmptyString =>
      if is_latin_letter c then Throws unescaped_letter
      else Gives (String c EmptyString)
    | String c' rest =>
      if (String c (String c' "") =? "HH")%string
      then rendered_after (two_digits ((ms / 3600000) mod 24)) (render ms rest)
      else if (String c (String c' "") =? "mm")%string
      then rendered_after (two_digits ((ms / 60000) mod 60)) (render ms rest)
      else if (String c (String c' "") =? "ss")%string
      then rendered_after (two_digits ((ms / 1000) mod 60)) (render ms rest)
      else if is_latin_letter c then Throws unescaped_letter
      else rendered_after (String c EmptyString) (render ms tail)
    end
  end.

Definition demo_host (offset_minutes : Z) : DateHost :=
  {| number := Z;
     num_lit := fun z => z;
     num_mul := Z.mul;
     num_add := Z.add;
     Date := Z;
     new_Date := fun ms => ms;
     getTime := fun d => d;
     getTimezoneOffset := fun _ => offset_minutes;
     format := fun d pattern => render (d - offset_minutes * 60000) pattern |}.

(** The bounded check behind [waiting_for]. *)
Definition waiting_forb `{DateHost} (remote : Remote) (n : nat) : bool :=
  forallb
    (fun k => match poll_reply remote k with
              | Arrived t => negb (is_terminal t)
              | Raised _ => false
              end)
    (seq 0 n).

(** A complete job that lacks its text or its segments. *)
Definition fieldless_complete `{DateHost} (t : Transcription) : Prop :=
  status t = "complete" /\ (text t = None \/ text_segments t = None).

(** ** The formatter as the specification words it *)

Section FormatterSpec.
Context `{DateHost}.

(** Follows the spec's words: a bound in fractional seconds becomes a time
    anchored at the epoch, is adjusted by the host's zone offset, and is
    rendered with the pattern, if [format] renders it. *)
Definition rendered_bound (seconds : number) (pattern : string) : Try string :=
  format (shift_to_utc (new_Date (num_mul seconds (num_lit 1000)))) pattern.

(** Follows the spec's words: ["<start> - <end>: <text>\n"], from the two
    rendered bounds and the text. *)
Definition line_of (start_formatted end_formatted text : string) : string :=
  start_formatted +++ " - " +++ end_formatted +++ ": " +++ text +++ nl.

(** The line of a segment; there is none when a bound is not rendered. *)
Definition spec_line (pattern : string) (segment : TimestampedTextSegment)
  : Try string :=
  match rendered_bound (seg_start segment) pattern with
  | Throws e => Throws e
  | Gives start_formatted =>
    match rendered_bound (seg_end segment) pattern with
    | Throws e => Throws e
    | Gives end_formatted =>
      Gives (line_of start_formatted end_formatted (seg_text segment))
    end
  end.

(** Follows the spec's words: one line per segment, concatenated in order. *)
Fixpoint concat_lines (lines : list string) : string :=
  match lines with
  | [] => ""
  | line :: rest => line +++ concat_lines rest
  end.

End FormatterSpec.

(** The lines, if every one of them is there; otherwise the exception of the
    first that is not. *)
Fixpoint all_lines (lines : list (Try string)) : Try (list string) :=
  match lines with
  | [] => Gives []
  | Throws e :: _ => Throws e
  | Gives line :: rest =>
    match all_lines rest with
    | Gives others => Gives (line :: others)
    | Throws e => Throws e
    end
  end.

(** A text built from lines that may be missing. *)
Definition concatenated (lines : Try (list string)) : Try string :=
  match lines with
  | Gives present => Gives (concat_lines present)
  | Throws e => Throws e
  end.

(** One text after another, when both are there; the first exception
    otherwise. *)
Definition followed_by (front back : Try string) : Try string :=
  match front, back with
  | Gives a, Gives b => Gives (a +++ b)
  | Throws e, _ => Throws e
  | Gives _, Throws e => Throws e
  end.

(** How an [async] body ends that returns what a call gives. *)
Definition returned_or_thrown (t : Try string) : Completion string :=
  match t with
  | Gives transcription => Returned transcription
  | Throws e => Thrown (RejRaised e)
  end.

(** How a promise ends that returns what a call gives. *)
Definition outcome_of_try (t : Try string) : Outcome :=
  match t with
  | Gives transcription => Resolved transcription
  | Throws e => Rejected (RejRaised e)
  end.

(** ** Sample data *)

(** A host two hours ahead of UTC. *)
Definition demo : DateHost := demo_host (-120).

Definition sample_settings (engine : string) (with_timestamps : bool)
  : TranscriptionSettings :=
  {| debug := true; verbosity := 1; dev := false; translate := false;
     timestamps := with_timestamps; timestampFormat := "HH:mm:ss";
     transcription_engine := engine; swiftinkToken := "token";
     whisperASRUrl := "http://localhost:9000";
     azureKey := "key"; azureRegion := "westeurope"; azureLang := "auto" |}.

Definition sample_engine (engine : string) (with_timestamps : bool)
  : TranscriptionEngine :=
  {| settings := sample_settings engine with_timestamps;
     has_status_bar := false |}.

Definition sample_segments : list (@TimestampedTextSegment demo) :=
  [ @Build_TimestampedTextSegment demo 0%Z 1%Z "hello";
    @Build_TimestampedTextSegment demo 1%Z 3725%Z "world" ].

(** A reply that carries a status and nothing else. *)
Definition bare (s : string) : @Transcription demo :=
  @Build_Transcription demo s None None.

Definition sample_complete : @Transcription demo :=
  @Build_Transcription demo "complete" (Some "hello world") (Some sample_segments).

(** A service that answers the first status requests from [script] and every
    later one with [rest]. *)
Definition scripted (script : list (@Transcription demo))
           (rest : @Transcription demo) : @Remote demo :=
  @Build_Remote demo (Arrived "42") (fun k => Arrived (nth k script rest)).

(** [n] queued replies, then [failed] for good. *)
Definition fails_after (n : nat) : @Remote demo :=
  @Build_Remote demo (Arrived "42")
    (fun k => Arrived (if (k <? n)%nat then bare "queued" else bare "failed")).

(** A service that sends the same reply for ever. *)
Definition always_replies (t : @Transcription demo) : @Remote demo :=
  @Build_Remote demo (Arrived "42") (fun _ => Arrived t).

(** An engine with timestamps on and a pattern with a letter that [format]
    has no token for. *)
Definition unrenderable_engine : TranscriptionEngine :=
  {| settings :=
       {| debug := false; verbosity := 1; dev := false; translate := false;
          timestamps := true; timestampFormat := "nn:ss";
          transcription_engine := "swiftink"; swiftinkToken := "token";
          whisperASRUrl := "http://localhost:9000";
          azureKey := "key"; azureRegion := "westeurope"; azureLang := "auto" |};
     has_status_bar := false |}.

Definition sample_service (events : list SdkEvent) : SpeechService :=
  {| wav_ready := Arrived tt; fired := events |}.

(** An engine whose WhisperASR runs are empty transcripts. *)
Definition sample_methods (this : TranscriptionEngine) : Backend -> TFile -> Run :=
  @engine_methods demo this
    (scripted [bare "queued"; bare "queued"] sample_complete)
    (sample_service [OnRecognized RecognizedSpeech "hello"; OnSessionStopped])
    (fun _ => ([], Resolved "")).

(** ** Vocabulary for the event-driven adapter *)

Definition is_cancellation (ev : SdkEvent) : bool :=
  match ev with OnCanceled _ _ => true | _ => false end.

(** The recognized-speech events carrying the given fragments, in order. *)
Definition speech (fragments : list string) : list SdkEvent :=
  map (OnRecognized RecognizedSpeech) fragments.

Fixpoint all_white (s : string) : bool :=
  match s with
  | EmptyString => true
  | String c rest => is_white_space c && all_white rest
  end.

Definition starts_white (s : string) : bool :=
  match s with
  | EmptyString => false
  | String c _ => is_white_space c
  end.

Fixpoint ends_white (s : string) : bool :=
  match s with
  | EmptyString => false
  | String c EmptyString => is_white_space c
  | String _ rest => ends_white rest
  end.

(** ** One round of the poll loop, spelled out *)

(** How one round of the loop ends. *)
Inductive Ending : Type :=
| EndReturn (transcription : string)
| EndThrow (r : Rejection)
| GoOn.

Section Rounds.
Context `{DateHost}.
Variable this : TranscriptionEngine.

(** What a round does once its status request has been answered, and how it
    ends, given the counter and the answer. *)
Definition round_of (tries : Z) (reply : Awaited Transcription)
  : list Effect * Ending :=
  match reply with
  | Raised e => ([], EndThrow (RejRaised e))
  | Arrived transcription =>
    let logged := if debug (settings this) then [ConsoleLog LObject] else [] in
    match (status transcription =? "complete")%string,
          text_segments transcription,
          text transcription with
    | true, Some segments, Some txt =>
      (logged
         ++ (if debug (settings this)
             then [ConsoleLog (LStr "Swiftink finished transcribing")] else [])
         ++ (if (1 <=? verbosity (settings this))%Z
             then [if has_status_bar this
                   then DisplayMessage "100% - Complete!" 3000 true
                   else NewNotice "Swiftink finished transcribing" 3000]
             else []),
       if timestamps (settings this)
       then match segmentsToTimestampedString segments
                    (timestampFormat (settings this)) with
            | Gives transcription => EndReturn transcription
            | Throws e => EndThrow (RejRaised e)
            end
       else EndReturn txt)
    | _, _, _ =>
      if (max_tries <? tries)%Z then
        (logged ++ (if debug (settings this)
                    then [ConsoleError took_too_long] else []),
         EndThrow (RejString took_too_long))
      else if (status transcription =? "failed")%string then
        (logged ++ (if debug (settings this)
                    then [ConsoleError failed_to_transcribe] else []),
         EndThrow (RejString failed_to_transcribe))
      else if (status transcription =? "validation_failed")%string then
        (logged ++ (if debug (settings this)
                    then [ConsoleError invalid_file] else []),
         EndThrow (RejString invalid_file))
      else (logged ++ [SleepMs sleep_time], GoOn)
    end
  end.

Definition api_base : string :=
  if dev (settings this) then "https://example.com" else "https://api.swiftink.io".

Definition status_url (id : string) : string :=
  api_base +++ "/transcripts/" +++ id.

Definition status_request (id : string) : Effect :=
  HttpGet (status_url id) (swiftinkToken (settings this)).

(** A round that waits: the request, the debug output, the sleep. *)
Definition waiting_round (id : string) : list Effect :=
  status_request id
    :: (if debug (settings this) then [ConsoleLog LObject] else [])
    ++ [SleepMs sleep_time].

Fixpoint waiting_rounds (n : nat) (id : string) : list Effect :=
  match n with
  | O => []
  | S n' => waiting_round id ++ waiting_rounds n' id
  end.

(** Everything up to the loop, once the job has been created. *)
Definition preamble : list Effect :=
  HttpPost (api_base +++ "/transcripts/") (swiftinkToken (settings this))
           (translate (settings this))
    :: (if debug (settings this)
        then [ConsoleLog LObject; ConsoleLog (LStr "Uploading file to Swiftink...")]
        else [])
    ++ (if (1 <=? verbosity (settings this))%Z
        then [if has_status_bar this
              then DisplayMessage "Uploading..." 5000 false
              else NewNotice "Uploading file to Swiftink..." 3000]
        else [])
    ++ (if debug (settings this)
        then [ConsoleLog (LStr "Waiting for Swiftink to finish transcribing...")]
        else []).

End Rounds.

Definition outcome_of_ending (e : Ending) : Outcome :=
  match e with
  | EndReturn transcription => Resolved transcription
  | EndThrow r => Rejected r
  | GoOn => Pending
  end.

Definition completion_of (e : Ending) : Completion string :=
  match e with
  | EndReturn transcription => Returned transcription
  | EndThrow r => Thrown r
  | GoOn => OutOfFuel
  end.

Definition is_sleep (e : Effect) : bool :=
  match e with SleepMs _ => true | _ => false end.

Definition sleeps (tr : list Effect) : nat := length (filter is_sleep tr).

(** The time spent in [sleep], in milliseconds. *)
Fixpoint slept_ms (tr : list Effect) : Z :=
  match tr with
  | [] => 0
  | SleepMs ms :: rest => ms + slept_ms rest
  | _ :: rest => slept_ms rest
  end.

(** Messages shown to the user: status bar or notice. *)
Definition is_progress_message (e : Effect) : bool :=
  match e with DisplayMessage _ _ _ | NewNotice _ _ => true | _ => false end.

Definition progress_messages (tr : list Effect) : list Effect :=
  filter is_progress_message tr.

(** The two messages of the create-then-poll adapter, where the engine
    shows them. *)
Definition uploading_message (this : TranscriptionEngine) : Effect :=
  if has_status_bar this
  then DisplayMessage "Uploading..." 5000 false
  else NewNotice "Uploading file to Swiftink..." 3000.

Definition complete_message (this : TranscriptionEngine) : Effect :=
  if has_status_bar this
  then DisplayMessage "100% - Complete!" 3000 true
  else NewNotice "Swiftink finished transcribing" 3000.

(** A status reply that takes the loop into its success branch. *)
Definition answers_success `{DateHost} (reply : Awaited Transcription) : bool :=
  match reply with
  | Arrived transcription => is_success transcription
  | Raised _ => false
  end.

Definition is_request_or_sleep (e : Effect) : bool :=
  is_status_request e || is_sleep e.

(** [n] times a request and a sleep of [ms], then one more request. *)
Fixpoint paced (request : Effect) (ms : Z) (n : nat) : list Effect :=
  match n with
  | O => [request]
  | S n' => request :: SleepMs ms :: paced request ms n'
  end.

Definition is_http (e : Effect) : bool :=
  match e with HttpPost _ _ _ | HttpGet _ _ => true | _ => false end.

Definition console_output (tr : list Effect) : list Effect :=
  filter is_diagnostic tr.

(** ** More vocabulary for the event-driven adapter *)

(** The text of the recognized-speech events, in order. *)
Fixpoint spoken (events : list SdkEvent) : list string :=
  match events with
  | [] => []
  | OnRecognized RecognizedSpeech result_text :: rest => result_text :: spoken rest
  | _ :: rest => spoken rest
  end.

(** The events whose handler calls [stopContinuousRecognitionAsync]. *)
Definition asks_to_stop (ev : SdkEvent) : bool :=
  match ev with
  | OnCanceled _ _ | OnSessionStopped => true
  | OnRecognized _ _ => false
  end.

(** What the first settling event makes of the promise, given the text
    accumulated before it. *)
Definition settlement (text_so_far : string) (ev : SdkEvent) : Outcome :=
  match ev with
  | OnCanceled Error errorDetails => Rejected (RejCanceled errorDetails)
  | OnRecognized NoMatch _ | OnSessionStopped => Resolved (trim text_so_far)
  | _ => Pending
  end.

Definition notifications (tr : list Effect) : list Effect := filter is_notify tr.

(** Creating the recognizer and starting recognition. *)
Definition is_setup (e : Effect) : bool :=
  match e with
  | CreateRecognizer _ _ | StartContinuousRecognition => true
  | _ => false
  end.

(** ** The one-shot adapter *)

(** The effects of [getTranscriptionWhisperASR]. *)
Inductive WhisperEffect : Type :=
| ReadBinary (file : TFile)
| GeneratePayload (field : string) (audio : list Byte.byte)
| PostForm (url contentType : string) (body : list Byte.byte)
| LogResponse                                   (* [console.log(response)] *)
| LogError (error : Rejection).                 (* [console.error(error)] *)

(** What evaluating [response.json.text] gives: a value, which is a string or
    something else ([None]), or an exception (a body that is not JSON, or no
    object to read [text] from). *)
Inductive JsonText : Type :=
| JsonTextIs (value : option string)
| JsonRaises (error : Rejection).

(** The response of [requestUrl], as the adapter reads it: [response_text]
    is [Some] when [typeof response.text === 'string']. *)
Record Response : Type := {
  response_text : option string;
  json_text : JsonText
}.

(** The collaborators: the vault's [readBinary], [payloadGenerator] of
    [src/utils] (not among the sources, taken as given: a body and a boundary
    string) and the service's answer to the request. *)
Record WhisperService : Type := {
  read_binary : Awaited (list Byte.byte);
  payloadGenerator : list Byte.byte -> Awaited (list Byte.byte * string);
  post_reply : Awaited Response
}.

(** How the adapter's promise ends; a resolved value that is not a string is
    [None]. *)
Inductive WhisperOutcome : Type :=
| WhisperResolved (value : option string)
| WhisperRejected (error : Rejection).

Section Whisper.
Variable this : TranscriptionEngine.
Variable service : WhisperService.

Definition whisper_url : string :=
  whisperASRUrl (settings this) +++ "/asr?task=transcribe&language=en".

(** [getTranscriptionWhisperASR].  The two awaits before [requestUrl] are
    outside the [then]/[catch] chain; an exception in the [then] callback is
    inside it. *)
Definition getTranscriptionWhisperASR (file : TFile)
  : list WhisperEffect * WhisperOutcome :=
  match read_binary service with
  | Raised e => ([ReadBinary file], WhisperRejected (RejRaised e))
  | Arrived audio =>
    match payloadGenerator service audio with
    | Raised e =>
      ([ReadBinary file; GeneratePayload "audio_file" audio],
       WhisperRejected (RejRaised e))
    | Arrived (request_body, boundary_string) =>
      let sent :=
        [ReadBinary file; GeneratePayload "audio_file" audio;
         PostForm whisper_url
                  ("multipart/form-data; boundary=----" +++ boundary_string)
                  request_body] in
      let caught (error : Rejection) : list WhisperEffect :=
        if debug (settings this) then [LogError error] else [] in
      match post_reply service with
      | Raised e => (sent ++ caught (RejRaised e), WhisperRejected (RejRaised e))
      | Arrived response =>
        let logged := if debug (settings this) then [LogResponse] else [] in
        match response_text response with
        | Some transcription =>
          (sent ++ logged, WhisperResolved (Some transcription))
        | None =>
          match json_text response with
          | JsonTextIs value => (sent ++ logged, WhisperResolved value)
          | JsonRaises error =>
            (sent ++ logged ++ caught error, WhisperRejected error)
          end
        end
      end
    end
  end.

End Whisper.

Definition is_post (e : WhisperEffect) : bool :=
  match e with PostForm _ _ _ => true | _ => false end.

Definition is_error_log (e : WhisperEffect) : bool :=
  match e with LogError _ => true | _ => false end.

(** ** More sample data *)

Definition quiet_engine : TranscriptionEngine :=
  {| settings :=
       {| debug := false; verbosity := 0; dev := true; translate := true;
          timestamps := true; timestampFormat := "mm:ss";
          transcription_engine := "swiftink"; swiftinkToken := "token";
          whisperASRUrl := "http://localhost:9000";
          azureKey := "key"; azureRegion := "westeurope"; azureLang := "uk-UA" |};
     has_status_bar := true |}.

(** [n] queued replies, then [last] for good. *)
Definition then_replies (n : nat) (last : Awaited (@Transcription demo))
  : @Remote demo :=
  @Build_Remote demo (Arrived "42")
    (fun k => if (k <? n)%nat then Arrived (bare "queued") else last).

(** A service that cannot create the job. *)
Definition unreachable : @Remote demo :=
  @Build_Remote demo (Raised "net::ERR_CONNECTION_REFUSED")
    (fun _ => Arrived sample_complete).

Definition sample_whisper (reply : Awaited Response) : WhisperService :=
  {| read_binary := Arrived [];
     payloadGenerator := fun audio => Arrived (audio, "boundary");
     post_reply := reply |}.

(* ===================================================================== *)
(** * Part II: properties *)
(* ===================================================================== *)

(** ** Strings *)

Lemma append_empty_r (s : string) : s +++ "" = s.
Proof. induction s as [|c s IH]; simpl; [reflexivity | now rewrite IH]. Qed.

Lemma append_assoc (a b c : string) : (a +++ b) +++ c = a +++ (b +++ c).
Proof. induction a as [|x a IH]; simpl; [reflexivity | now rewrite IH]. Qed.

(** ** The segment formatter *)

Section FormatterFacts.
Context `{DateHost}.

Lemma segment_string_is_spec_line (pattern : string) (segment : TimestampedTextSegment) :
  segment_string pattern segment = spec_line pattern segment.
Proof. reflexivity. Qed.



(** The loop with any starting accumulator: the accumulator, then the lines,
    or the exception of the first line that is missing. *)
Lemma formatter_loop_from (pattern : string) (segments : list TimestampedTextSegment) :
  forall acc,
    format_segments pattern segments acc
    = followed_by (Gives acc)
                  (concatenated (all_lines (map (spec_line pattern) segments))).
Proof.
  induction segments as [|segment rest IH]; intros acc;
    cbn [format_segments map all_lines].
  - cbn. now rewrite append_empty_r.
  - rewrite segment_string_is_spec_line.
    destruct (spec_line pattern segment) as [line|e]; [|reflexivity].
    rewrite IH.
    destruct (all_lines (map (spec_line pattern) rest)) as [others|e];
      cbn; [now rewrite append_assoc | reflexivity].
Qed.

Lemma concat_lines_app (xs ys : list string) :
  concat_lines (xs ++ ys) = concat_lines xs +++ concat_lines ys.
Proof.
  induction xs as [|x xs IH]; simpl; [reflexivity|].
  now rewrite IH, append_assoc.
Qed.


End FormatterFacts.

(** On the sample host, two hours ahead of UTC, the bounds come out as
    offsets from midnight; a letter the host has no token for makes [format]
    throw, and the formatter with it. *)
Example formatter_on_sample_segments :
  @segmentsToTimestampedString demo sample_segments "HH:mm:ss"
  = Gives ("00:00:00 - 00:00:01: hello" +++ nl
           +++ "00:00:01 - 01:02:05: world" +++ nl)
  /\ @segmentsToTimestampedString demo sample_segments "nn:ss"
     = Throws unescaped_letter.
Proof. split; reflexivity. Qed.

(** ** The create-then-poll adapter *)

Lemma status_requests_app (xs ys : list Effect) :
  status_requests (xs ++ ys) = status_requests xs + status_requests ys.
Proof. unfold status_requests. now rewrite filter_app, length_app. Qed.

Section SwiftinkFacts.
Context `{DateHost}.
Variable this : TranscriptionEngine.
Variable remote : Remote.

Ltac run_request Hreply :=
  cbn [poll_loop]; unfold bind at 1; unfold requestUrl_get at 1;
  rewrite Hreply; unfold bind at 1, when at 1.

Ltac count_requests :=
  cbn [polls trace]; unfold one_request_later; cbn [polls trace];
  rewrite ?status_requests_app; cbn; try lia.

(** A reply that is not a success, met with the counter within bounds and a
    status that is neither failure: the loop sleeps and goes round again
    with the counter one higher. *)
Lemma poll_loop_waits (fuel : nat) (url : string) (tries : Z) (w : World)
      (t : Transcription) :
  poll_reply remote (polls w) = Arrived t ->
  is_terminal t = false ->
  (tries <= max_tries)%Z ->
  exists w',
    poll_loop this remote (S fuel) url tries w
    = poll_loop this remote fuel url (tries + 1)%Z w'
    /\ one_request_later w w'
    /\ exists front, trace w' = front ++ [SleepMs sleep_time].
Proof.
  intros Hreply Hterm Htries.
  unfold is_terminal, is_success in Hterm.
  apply orb_false_elim in Hterm as [Hterm Hinvalid].
  apply orb_false_elim in Hterm as [Hsuccess Hfailed].
  assert (Hmax : (max_tries <? tries)%Z = false) by (apply Z.ltb_ge; lia).
  destruct (debug (settings this)) eqn:Hdebug; eexists; (split; [|split]).
  1, 4: run_request Hreply; rewrite Hdebug; cbn [perform ret bind];
    unfold bind at 1; cbn [perform];
    destruct (status t =? "complete")%string, (text_segments t), (text t);
    try discriminate Hsuccess;
    rewrite Hmax, Hfailed, Hinvalid;
    unfold bind at 1, sleep, perform; reflexivity.
  all: try (count_requests; fail).
  all: cbn [trace]; eexists; reflexivity.
Qed.

(** Past the budget, any reply but a success ends the loop with the
    time-out, whatever status it reports. *)
Lemma poll_loop_times_out (fuel : nat) (url : string) (tries : Z) (w : World)
      (t : Transcription) :
  poll_reply remote (polls w) = Arrived t ->
  is_success t = false ->
  (max_tries < tries)%Z ->
  exists w',
    poll_loop this remote (S fuel) url tries w
    = (Thrown (RejString took_too_long), w')
    /\ one_request_later w w'.
Proof.
  intros Hreply Hsuccess Htries.
  unfold is_success in Hsuccess.
  assert (Hmax : (max_tries <? tries)%Z = true) by (apply Z.ltb_lt; lia).
  destruct (debug (settings this)) eqn:Hdebug; eexists; split.
  1, 3: run_request Hreply; rewrite Hdebug; cbn [perform ret bind];
    unfold bind at 1; cbn [perform];
    destruct (status t =? "complete")%string, (text_segments t), (text t);
    try discriminate Hsuccess;
    rewrite Hmax; unfold bind at 1, when, reject, perform; reflexivity.
  all: count_requests.
Qed.

(** Within the budget, [failed] ends the loop with its own rejection. *)
Lemma poll_loop_failed (fuel : nat) (url : string) (tries : Z) (w : World)
      (t : Transcription) :
  poll_reply remote (polls w) = Arrived t ->
  status t = "failed" ->
  (tries <= max_tries)%Z ->
  exists w',
    poll_loop this remote (S fuel) url tries w
    = (Thrown (RejString failed_to_transcribe), w')
    /\ one_request_later w w'.
Proof.
  intros Hreply Hstatus Htries.
  assert (Hmax : (max_tries <? tries)%Z = false) by (apply Z.ltb_ge; lia).
  destruct (debug (settings this)) eqn:Hdebug; eexists; split.
  1, 3: run_request Hreply; rewrite Hdebug; cbn [perform ret bind];
    unfold bind at 1; cbn [perform];
    rewrite Hstatus; cbn [String.eqb Ascii.eqb Bool.eqb];
    rewrite Hmax; unfold bind at 1, when, reject, perform; reflexivity.
  all: count_requests.
Qed.

(** Within the budget, [validation_failed] ends the loop with the rejection
    for invalid files. *)
Lemma poll_loop_invalid (fuel : nat) (url : string) (tries : Z) (w : World)
      (t : Transcription) :
  poll_reply remote (polls w) = Arrived t ->
  status t = "validation_failed" ->
  (tries <= max_tries)%Z ->
  exists w',
    poll_loop this remote (S fuel) url tries w
    = (Thrown (RejString invalid_file), w')
    /\ one_request_later w w'.
Proof.
  intros Hreply Hstatus Htries.
  assert (Hmax : (max_tries <? tries)%Z = false) by (apply Z.ltb_ge; lia).
  destruct (debug (settings this)) eqn:Hdebug; eexists; split.
  1, 3: run_request Hreply; rewrite Hdebug; cbn [perform ret bind];
    unfold bind at 1; cbn [perform];
    rewrite Hstatus; cbn [String.eqb Ascii.eqb Bool.eqb];
    rewrite Hmax; unfold bind at 1, when, reject, perform; reflexivity.
  all: count_requests.
Qed.

(** A complete reply with both fields ends the loop, whatever the counter:
    with the text, or with what the formatter gives or throws. *)
Lemma poll_loop_succeeds (fuel : nat) (url : string) (tries : Z) (w : World)
      (t : Transcription) (txt : string) (segments : list TimestampedTextSegment) :
  poll_reply remote (polls w) = Arrived t ->
  status t = "complete" ->
  text t = Some txt ->
  text_segments t = Some segments ->
  exists w',
    poll_loop this remote (S fuel) url tries w
    = (returned_or_thrown
         (if timestamps (settings this)
          then segmentsToTimestampedString segments
                 (timestampFormat (settings this))
          else Gives txt), w')
    /\ one_request_later w w'.
Proof.
  intros Hreply Hstatus Htext Hsegments.
  destruct (debug (settings this)) eqn:Hdebug;
    destruct (1 <=? verbosity (settings this))%Z eqn:Hverbose;
    destruct (has_status_bar this) eqn:Hbar;
    destruct (timestamps (settings this)) eqn:Hstamps;
    try destruct (segmentsToTimestampedString segments
                    (timestampFormat (settings this))) eqn:Hformatted;
    eexists; split.
  all: try (run_request Hreply; rewrite Hdebug; cbn [perform ret bind];
    unfold bind at 1; cbn [perform];
    rewrite Hstatus, Htext, Hsegments; cbn [String.eqb Ascii.eqb Bool.eqb];
    unfold bind, when, announce, when, perform, ret, reject;
    rewrite ?Hverbose, ?Hbar, ?Hstamps, ?Hformatted; reflexivity).
  all: count_requests.
Qed.

(** A failed request ends the loop with the transport's error. *)
Lemma poll_loop_transport_error (fuel : nat) (url : string) (tries : Z)
      (w : World) (e : string) :
  poll_reply remote (polls w) = Raised e ->
  exists w',
    poll_loop this remote (S fuel) url tries w = (Thrown (RejRaised e), w')
    /\ one_request_later w w'.
Proof.
  intros Hreply. eexists; split.
  - cbn [poll_loop]; unfold bind at 1; unfold requestUrl_get at 1;
      rewrite Hreply. reflexivity.
  - count_requests.
Qed.

(** [n] waiting replies in a row: the loop goes round [n] times. *)
Lemma poll_loop_keeps_waiting (n : nat) :
  forall (fuel : nat) (url : string) (tries : Z) (w : World),
    (forall k, (k < n)%nat ->
       exists t, poll_reply remote (polls w + k) = Arrived t
                 /\ is_terminal t = false) ->
    (tries + Z.of_nat n <= max_tries + 1)%Z ->
    exists w',
      poll_loop this remote (n + fuel) url tries w
      = poll_loop this remote fuel url (tries + Z.of_nat n)%Z w'
      /\ polls w' = (polls w + n)%nat
      /\ status_requests (trace w') = (status_requests (trace w) + n)%nat.
Proof.
  induction n as [|n IH]; intros fuel url tries w Hreplies Hbound.
  - exists w. rewrite Z.add_0_r, !Nat.add_0_r. auto.
  - destruct (Hreplies 0%nat ltac:(lia)) as (t & Hreply & Hterm).
    rewrite Nat.add_0_r in Hreply.
    destruct (poll_loop_waits (n + fuel) url tries w t Hreply Hterm ltac:(lia))
      as (w1 & Hstep & (Hpolls & Hcount) & _).
    destruct (IH fuel url (tries + 1)%Z w1) as (w' & Hrest & Hpolls' & Hcount').
    + intros k Hk. rewrite Hpolls.
      replace (S (polls w) + k)%nat with (polls w + S k)%nat by lia.
      apply Hreplies. lia.
    + lia.
    + exists w'. cbn [Nat.add]. rewrite Hstep, Hrest.
      replace (tries + 1 + Z.of_nat n)%Z with (tries + Z.of_nat (S n))%Z by lia.
      repeat split; lia.
Qed.

(** The loop always leaves: with the counter at most one past the budget,
    fuel for the remaining rounds is enough. *)
Lemma poll_loop_total (fuel : nat) :
  forall (url : string) (tries : Z) (w : World),
    (tries <= max_tries + 1)%Z ->
    (max_tries + 2 <= tries + Z.of_nat fuel)%Z ->
    fst (poll_loop this remote fuel url tries w) <> OutOfFuel.
Proof.
  induction fuel as [|fuel IH]; intros url tries w Hhi Hlo.
  - unfold max_tries in *. lia.
  - destruct (poll_reply remote (polls w)) as [t|e] eqn:Hreply.
    2: { destruct (poll_loop_transport_error fuel url tries w e Hreply)
           as (w' & -> & _). discriminate. }
    destruct (is_success t) eqn:Hsuccess.
    { unfold is_success in Hsuccess.
      destruct (status t =? "complete")%string eqn:Hstatus; [|discriminate].
      apply String.eqb_eq in Hstatus.
      destruct (text_segments t) as [segments|] eqn:Hsegments; [|discriminate].
      destruct (text t) as [txt|] eqn:Htext; [|discriminate].
      destruct (poll_loop_succeeds fuel url tries w t txt segments
                  Hreply Hstatus Htext Hsegments) as (w' & -> & _).
      cbn [fst]. destruct (if timestamps (settings this)
                           then segmentsToTimestampedString segments
                                  (timestampFormat (settings this))
                           else Gives txt); discriminate. }
    destruct (Z.ltb_spec max_tries tries) as [Hover|Hwithin].
    { destruct (poll_loop_times_out fuel url tries w t Hreply Hsuccess Hover)
        as (w' & -> & _). discriminate. }
    destruct (status t =? "failed")%string eqn:Hfailed.
    { apply String.eqb_eq in Hfailed.
      destruct (poll_loop_failed fuel url tries w t Hreply Hfailed Hwithin)
        as (w' & -> & _). discriminate. }
    destruct (status t =? "validation_failed")%string eqn:Hinvalid.
    { apply String.eqb_eq in Hinvalid.
      destruct (poll_loop_invalid fuel url tries w t Hreply Hinvalid Hwithin)
        as (w' & -> & _). discriminate. }
    assert (Hterm : is_terminal t = false).
    { unfold is_terminal. now rewrite Hsuccess, Hfailed, Hinvalid. }
    destruct (poll_loop_waits fuel url tries w t Hreply Hterm Hwithin)
      as (w' & -> & _).
    apply IH; lia.
Qed.

(** Up to the loop: once the job is created, the adapter enters the loop
    with the counter at 0 and no status request made. *)
Lemma swiftink_enters_loop (file : TFile) (id : string) :
  create_reply remote = Arrived id ->
  exists (url : string) (w : World),
    getTranscriptionSwiftink this remote file initial_world
    = poll_loop this remote poll_budget url 0%Z w
    /\ polls w = 0%nat
    /\ status_requests (trace w) = 0%nat.
Proof.
  intros Hcreate.
  unfold getTranscriptionSwiftink, announce.
  unfold bind at 1; unfold requestUrl_post at 1; rewrite Hcreate.
  destruct (debug (settings this));
    destruct (1 <=? verbosity (settings this))%Z;
    destruct (has_status_bar this);
    (eexists; eexists; split;
     [ unfold bind, when, perform, ret; cbn [polls trace]; reflexivity
     | split; [reflexivity | count_requests; reflexivity] ]).
Qed.

(** If the job cannot be created, the adapter rejects with the transport's
    error before any status request. *)
Lemma swiftink_create_fails (file : TFile) (e : string) :
  create_reply remote = Raised e ->
  snd (swiftink_run this remote file) = Rejected (RejRaised e)
  /\ status_requests (fst (swiftink_run this remote file)) = 0%nat.
Proof.
  intros Hcreate.
  assert (E : swiftink_run this remote file
              = ([HttpPost ((if dev (settings this)
                             then "https://example.com"
                             else "https://api.swiftink.io") +++ "/transcripts/")
                           (swiftinkToken (settings this))
                           (translate (settings this))],
                 Rejected (RejRaised e))).
  { unfold swiftink_run, run_async, getTranscriptionSwiftink.
    unfold bind at 1; unfold requestUrl_post at 1; rewrite Hcreate.
    reflexivity. }
  rewrite E. split; reflexivity.
Qed.

(** The adapter's promise always settles. *)
Lemma swiftink_always_settles (file : TFile) :
  snd (swiftink_run this remote file) <> Pending.
Proof.
  destruct (create_reply remote) as [id|e] eqn:Hcreate.
  - destruct (swiftink_enters_loop file id Hcreate) as (url & w & Hrun & _).
    unfold swiftink_run, run_async. rewrite Hrun.
    pose proof (poll_loop_total poll_budget url 0%Z w) as Htotal.
    destruct (poll_loop this remote poll_budget url 0 w) as [[txt|r|] w'];
      cbn [snd]; try discriminate.
    exfalso. apply Htotal; cbn; unfold max_tries; try lia. reflexivity.
  - destruct (swiftink_create_fails file e Hcreate) as [-> _]. discriminate.
Qed.

Lemma queued_is_not_terminal (t : Transcription) :
  status t = "queued" -> is_terminal t = false.
Proof. intros Hstatus. unfold is_terminal, is_success. now rewrite Hstatus. Qed.

Lemma fieldless_complete_is_not_terminal (t : Transcription) :
  fieldless_complete t -> is_terminal t = false.
Proof.
  intros [Hstatus Hfield]. unfold is_terminal, is_success. rewrite Hstatus.
  cbn [String.eqb Ascii.eqb Bool.eqb orb].
  destruct Hfield as [-> | ->]; [destruct (text_segments t)|]; reflexivity.
Qed.

(** How a run ends, read off the loop. *)
Lemma swiftink_run_of_loop (file : TFile) (id : string) :
  create_reply remote = Arrived id ->
  exists (url : string) (w : World),
    polls w = 0%nat /\ status_requests (trace w) = 0%nat
    /\ swiftink_run this remote file
       = match poll_loop this remote poll_budget url 0%Z w with
         | (Returned txt, w') => (trace w', Resolved txt)
         | (Thrown r, w') => (trace w', Rejected r)
         | (OutOfFuel, w') => (trace w', Pending)
         end.
Proof.
  intros Hcreate.
  destruct (swiftink_enters_loop file id Hcreate) as (url & w & Hrun & Hpolls & Hcount).
  exists url, w. repeat split; trivial.
  unfold swiftink_run, run_async. now rewrite Hrun.
Qed.

(** After 201 waiting replies the counter has passed the budget: the 202nd
    request ends with the time-out unless its reply is a success. *)
Lemma timeout_budget_exceeded
        (file : TFile) (id : string) (t : Transcription) :
  create_reply remote = Arrived id ->
  waiting_for remote 201 ->
  poll_reply remote 201 = Arrived t ->
  is_success t = false ->
  snd (swiftink_run this remote file) = Rejected (RejString took_too_long)
  /\ status_requests (fst (swiftink_run this remote file)) = 202%nat.
Proof.
  intros Hcreate Hwaiting Hreply Hsuccess.
  destruct (swiftink_run_of_loop file id Hcreate)
    as (url & w & Hpolls & Hcount & ->).
  change poll_budget with (201 + 1)%nat.
  destruct (poll_loop_keeps_waiting 201 1 url 0%Z w) as (w1 & -> & Hpolls1 & Hcount1).
  { intros k Hk. rewrite Hpolls. now apply Hwaiting. }
  { unfold max_tries. lia. }
  rewrite Hpolls in Hpolls1. cbn [Nat.add] in Hpolls1.
  rewrite <- Hpolls1 in Hreply.
  destruct (poll_loop_times_out 0 url (0 + Z.of_nat 201)%Z w1 t Hreply Hsuccess)
    as (w2 & -> & _ & Hcount2).
  { unfold max_tries. lia. }
  cbn [fst snd]. split; [reflexivity | lia].
Qed.

(** C1, as amended: if the first 201 status replies arrive and none is
    terminal, and the 202nd reply is anything but a complete job with both
    fields, the adapter rejects on that 202nd request with the time-out
    message and not with one of the two remote rejections, also when that
    reply reports [failed] or [validation_failed]: the counter is tested
    before the two remote failures. *)
Theorem timeout_once_counter_exceeds_budget
        (file : TFile) (id : string) (t : Transcription) :
  create_reply remote = Arrived id ->
  waiting_for remote 201 ->
  poll_reply remote 201 = Arrived t ->
  is_success t = false ->
  snd (swiftink_run this remote file) = Rejected (RejString took_too_long)
  /\ status_requests (fst (swiftink_run this remote file)) = 202%nat
  /\ snd (swiftink_run this remote file) <> Rejected (RejString failed_to_transcribe)
  /\ snd (swiftink_run this remote file) <> Rejected (RejString invalid_file).
Proof.
  intros Hcreate Hwaiting Hreply Hsuccess.
  destruct (timeout_budget_exceeded file id t Hcreate Hwaiting Hreply Hsuccess)
    as [Houtcome Hcount].
  rewrite Houtcome, Hcount.
  repeat split; intros Heq; inversion Heq.
Qed.

(** C2, as amended: when the first two status replies say [queued] and the
    third is a complete job carrying both its text and its segments, the
    adapter makes exactly three status requests.  With timestamps switched
    off it resolves with that text.  With timestamps switched on it resolves
    with the formatted segments if [format] renders every bound with the
    configured pattern, and is rejected with what [format] threw if not. *)
Theorem queued_queued_complete_takes_three_polls
        (file : TFile) (id : string) (first second third : Transcription)
        (txt : string) (segments : list TimestampedTextSegment) :
  create_reply remote = Arrived id ->
  poll_reply remote 0 = Arrived first -> status first = "queued" ->
  poll_reply remote 1 = Arrived second -> status second = "queued" ->
  poll_reply remote 2 = Arrived third ->
  status third = "complete" ->
  text third = Some txt ->
  text_segments third = Some segments ->
  status_requests (fst (swiftink_run this remote file)) = 3%nat
  /\ snd (swiftink_run this remote file)
     = (if timestamps (settings this)
        then match segmentsToTimestampedString segments
                     (timestampFormat (settings this)) with
             | Gives formatted => Resolved formatted
             | Throws e => Rejected (RejRaised e)
             end
        else Resolved txt).
Proof.
  intros Hcreate H0 Hq0 H1 Hq1 H2 Hstatus Htext Hsegments.
  destruct (swiftink_run_of_loop file id Hcreate)
    as (url & w & Hpolls & Hcount & ->).
  change poll_budget with (2 + S 199)%nat.
  destruct (poll_loop_keeps_waiting 2 (S 199) url 0%Z w) as (w1 & -> & Hpolls1 & Hcount1).
  { intros k Hk. rewrite Hpolls.
    destruct k as [|[|k]]; [exists first | exists second | lia];
      split; trivial; now apply queued_is_not_terminal. }
  { unfold max_tries. lia. }
  rewrite Hpolls in Hpolls1. cbn [Nat.add] in Hpolls1.
  rewrite <- Hpolls1 in H2.
  destruct (poll_loop_succeeds 199 url (0 + Z.of_nat 2)%Z w1 third txt segments
              H2 Hstatus Htext Hsegments) as (w2 & -> & _ & Hcount2).
  destruct (timestamps (settings this));
    [destruct (segmentsToTimestampedString segments
                 (timestampFormat (settings this)))|];
    cbn [returned_or_thrown fst snd]; (split; [lia | reflexivity]).
Qed.

(** A first reply of [validation_failed]: one request, then the rejection
    for invalid files. *)
Lemma invalid_on_first_poll (file : TFile) (id : string) (t : Transcription) :
  create_reply remote = Arrived id ->
  poll_reply remote 0 = Arrived t ->
  status t = "validation_failed" ->
  snd (swiftink_run this remote file) = Rejected (RejString invalid_file)
  /\ status_requests (fst (swiftink_run this remote file)) = 1%nat.
Proof.
  intros Hcreate Hreply Hstatus.
  destruct (swiftink_run_of_loop file id Hcreate)
    as (url & w & Hpolls & Hcount & ->).
  rewrite <- Hpolls in Hreply.
  destruct (poll_loop_invalid (S (Z.to_nat max_tries)) url 0%Z w t Hreply Hstatus)
    as (w1 & Hloop & _ & Hcount1); [unfold max_tries; lia|].
  unfold poll_budget. rewrite Hloop. cbn [fst snd]. split; [reflexivity | lia].
Qed.

(** A first reply of [failed]: one request, then the rejection for failed
    jobs. *)
Lemma failed_on_first_poll (file : TFile) (id : string) (t : Transcription) :
  create_reply remote = Arrived id ->
  poll_reply remote 0 = Arrived t ->
  status t = "failed" ->
  snd (swiftink_run this remote file) = Rejected (RejString failed_to_transcribe)
  /\ status_requests (fst (swiftink_run this remote file)) = 1%nat.
Proof.
  intros Hcreate Hreply Hstatus.
  destruct (swiftink_run_of_loop file id Hcreate)
    as (url & w & Hpolls & Hcount & ->).
  rewrite <- Hpolls in Hreply.
  destruct (poll_loop_failed (S (Z.to_nat max_tries)) url 0%Z w t Hreply Hstatus)
    as (w1 & Hloop & _ & Hcount1); [unfold max_tries; lia|].
  unfold poll_budget. rewrite Hloop. cbn [fst snd]. split; [reflexivity | lia].
Qed.

(** C9: a complete reply that lacks its text or its segments does not end
    the loop.  While the counter is within the budget the adapter makes the
    request, sleeps [sleep_time] and goes round again with the counter one
    higher; so a service that only ever sends such replies is polled 202
    times and the adapter then rejects with the time-out message. *)
Theorem fieldless_complete_is_polled_until_timeout (file : TFile) (id : string) :
  create_reply remote = Arrived id ->
  (forall k, exists t, poll_reply remote k = Arrived t /\ fieldless_complete t) ->
  (forall fuel url tries w,
      (tries <= max_tries)%Z ->
      exists w',
        poll_loop this remote (S fuel) url tries w
        = poll_loop this remote fuel url (tries + 1)%Z w'
        /\ one_request_later w w'
        /\ exists front, trace w' = front ++ [SleepMs sleep_time])
  /\ snd (swiftink_run this remote file) = Rejected (RejString took_too_long)
  /\ status_requests (fst (swiftink_run this remote file)) = 202%nat.
Proof.
  intros Hcreate Hreplies. split.
  - intros fuel url tries w Htries.
    destruct (Hreplies (polls w)) as (t & Hreply & Hfieldless).
    apply (poll_loop_waits fuel url tries w t Hreply); trivial.
    now apply fieldless_complete_is_not_terminal.
  - destruct (Hreplies 201%nat) as (t & Hreply & Hfieldless).
    apply (timeout_budget_exceeded file id t); trivial.
    + intros k _. destruct (Hreplies k) as (tk & Hk & Hfk).
      exists tk. split; trivial. now apply fieldless_complete_is_not_terminal.
    + apply fieldless_complete_is_not_terminal in Hfieldless.
      unfold is_terminal in Hfieldless.
      now destruct (is_success t).
Qed.

End SwiftinkFacts.

Lemma waiting_for_check `{DateHost} (remote : Remote) (n : nat) :
  waiting_forb remote n = true -> waiting_for remote n.
Proof.
  unfold waiting_forb, waiting_for. intros Hall k Hk.
  rewrite forallb_forall in Hall.
  specialize (Hall k). rewrite in_seq in Hall.
  specialize (Hall ltac:(lia)).
  destruct (poll_reply remote k) as [t|e]; [|discriminate].
  exists t. split; [reflexivity|]. now apply negb_true_iff.
Qed.

(** C3: when the first status reply says [validation_failed], the adapter
    rejects after exactly one status request with the message for invalid
    files; a service whose first reply says [failed] is rejected, also after
    one request, with the message for failed jobs, and the two rejections
    differ. *)
Theorem validation_failed_rejects_at_once `{DateHost}
        (this : TranscriptionEngine) (file : TFile)
        (remote : Remote) (id : string) (t : Transcription)
        (remote' : Remote) (id' : string) (t' : Transcription) :
  create_reply remote = Arrived id ->
  poll_reply remote 0 = Arrived t ->
  status t = "validation_failed" ->
  create_reply remote' = Arrived id' ->
  poll_reply remote' 0 = Arrived t' ->
  status t' = "failed" ->
  snd (swiftink_run this remote file) = Rejected (RejString invalid_file)
  /\ status_requests (fst (swiftink_run this remote file)) = 1%nat
  /\ snd (swiftink_run this remote' file) = Rejected (RejString failed_to_transcribe)
  /\ status_requests (fst (swiftink_run this remote' file)) = 1%nat
  /\ snd (swiftink_run this remote file) <> snd (swiftink_run this remote' file).
Proof.
  intros Hcreate Hreply Hstatus Hcreate' Hreply' Hstatus'.
  destruct (invalid_on_first_poll this remote file id t Hcreate Hreply Hstatus)
    as [Hinvalid Hone].
  destruct (failed_on_first_poll this remote' file id' t' Hcreate' Hreply' Hstatus')
    as [Hfailed Hone'].
  repeat split; trivial.
  rewrite Hinvalid, Hfailed. discriminate.
Qed.

(** C1, refuted as stated: 200 replies of [queued] followed by [failed].
    Nothing terminal arrives within 200 status requests, yet the adapter
    rejects on the 201st with the remote failure, not with the time-out. *)
Lemma timeout_claim_fails_on_poll_201 :
  create_reply (fails_after 200) = Arrived "42"
  /\ waiting_for (fails_after 200) 200
  /\ snd (swiftink_run (sample_engine "swiftink" false) (fails_after 200) "memo.webm")
     = Rejected (RejString failed_to_transcribe)
  /\ status_requests
       (fst (swiftink_run (sample_engine "swiftink" false) (fails_after 200) "memo.webm"))
     = 201%nat
  /\ snd (swiftink_run (sample_engine "swiftink" false) (fails_after 200) "memo.webm")
     <> Rejected (RejString took_too_long).
Proof.
  split; [reflexivity|].
  split; [apply waiting_for_check; vm_compute; reflexivity|].
  assert (E : swiftink_run (sample_engine "swiftink" false) (fails_after 200) "memo.webm"
              = (fst (swiftink_run (sample_engine "swiftink" false)
                                   (fails_after 200) "memo.webm"),
                 Rejected (RejString failed_to_transcribe))).
  { vm_compute. reflexivity. }
  split; [rewrite E; reflexivity|].
  split; [vm_compute; reflexivity|].
  rewrite E. cbn [snd]. discriminate.
Qed.

Lemma timeout_once_counter_exceeds_budget_witness :
  (create_reply (fails_after 201) = Arrived "42"
   /\ waiting_for (fails_after 201) 201
   /\ poll_reply (fails_after 201) 201 = Arrived (bare "failed")
   /\ is_success (bare "failed") = false)
  /\ snd (swiftink_run (sample_engine "swiftink" false) (fails_after 201) "memo.webm")
     = Rejected (RejString took_too_long)
  /\ status_requests
       (fst (swiftink_run (sample_engine "swiftink" false) (fails_after 201) "memo.webm"))
     = 202%nat
  /\ snd (swiftink_run (sample_engine "swiftink" false) (fails_after 201) "memo.webm")
     <> Rejected (RejString failed_to_transcribe)
  /\ snd (swiftink_run (sample_engine "swiftink" false) (fails_after 201) "memo.webm")
     <> Rejected (RejString invalid_file).
Proof.
  assert (Hwaiting : waiting_for (fails_after 201) 201)
    by (apply waiting_for_check; vm_compute; reflexivity).
  split.
  - repeat split. exact Hwaiting.
  - apply (@timeout_once_counter_exceeds_budget demo
             (sample_engine "swiftink" false) (fails_after 201) "memo.webm"
             "42" (bare "failed"));
      [reflexivity | exact Hwaiting | reflexivity | reflexivity].
Defined.

(** C2, refuted as stated: [queued], [queued], then a complete job with its
    text and its segments, on an engine with timestamps on whose pattern has
    a letter [format] has no token for.  The adapter makes its three status
    requests and is then rejected with what [format] threw; it does not
    resolve. *)
Lemma three_polls_then_the_formatter_throws :
  (poll_reply (scripted [bare "queued"; bare "queued"] sample_complete) 0
   = Arrived (bare "queued")
   /\ poll_reply (scripted [bare "queued"; bare "queued"] sample_complete) 1
      = Arrived (bare "queued")
   /\ poll_reply (scripted [bare "queued"; bare "queued"] sample_complete) 2
      = Arrived sample_complete
   /\ text sample_complete = Some "hello world"
   /\ text_segments sample_complete = Some sample_segments
   /\ timestamps (settings unrenderable_engine) = true)
  /\ status_requests
       (fst (swiftink_run unrenderable_engine
               (scripted [bare "queued"; bare "queued"] sample_complete)
               "memo.webm"))
     = 3%nat
  /\ snd (swiftink_run unrenderable_engine
            (scripted [bare "queued"; bare "queued"] sample_complete)
            "memo.webm")
     = Rejected (RejRaised unescaped_letter)
  /\ (forall transcription,
         snd (swiftink_run unrenderable_engine
                (scripted [bare "queued"; bare "queued"] sample_complete)
                "memo.webm")
         <> Resolved transcription).
Proof.
  assert (E : swiftink_run unrenderable_engine
                (scripted [bare "queued"; bare "queued"] sample_complete)
                "memo.webm"
              = (fst (swiftink_run unrenderable_engine
                        (scripted [bare "queued"; bare "queued"] sample_complete)
                        "memo.webm"),
                 Rejected (RejRaised unescaped_letter))).
  { vm_compute. reflexivity. }
  split; [repeat split|].
  split; [vm_compute; reflexivity|].
  rewrite E. cbn [snd]. split; [reflexivity | discriminate].
Qed.

Lemma queued_queued_complete_takes_three_polls_witness :
  status_requests
    (fst (swiftink_run (sample_engine "swiftink" true)
            (scripted [bare "queued"; bare "queued"] sample_complete) "memo.webm"))
  = 3%nat
  /\ snd (swiftink_run (sample_engine "swiftink" true)
            (scripted [bare "queued"; bare "queued"] sample_complete) "memo.webm")
     = Resolved ("00:00:00 - 00:00:01: hello" +++ nl
                 +++ "00:00:01 - 01:02:05: world" +++ nl).
Proof.
  apply (@queued_queued_complete_takes_three_polls demo
           (sample_engine "swiftink" true)
           (scripted [bare "queued"; bare "queued"] sample_complete)
           "memo.webm" "42" (bare "queued") (bare "queued") sample_complete
           "hello world" sample_segments); reflexivity.
Defined.

Lemma validation_failed_rejects_at_once_witness :
  snd (swiftink_run (sample_engine "swiftink" false)
         (always_replies (bare "validation_failed")) "memo.webm")
  = Rejected (RejString invalid_file)
  /\ status_requests
       (fst (swiftink_run (sample_engine "swiftink" false)
               (always_replies (bare "validation_failed")) "memo.webm"))
     = 1%nat
  /\ snd (swiftink_run (sample_engine "swiftink" false)
            (always_replies (bare "failed")) "memo.webm")
     = Rejected (RejString failed_to_transcribe)
  /\ status_requests
       (fst (swiftink_run (sample_engine "swiftink" false)
               (always_replies (bare "failed")) "memo.webm"))
     = 1%nat
  /\ snd (swiftink_run (sample_engine "swiftink" false)
            (always_replies (bare "validation_failed")) "memo.webm")
     <> snd (swiftink_run (sample_engine "swiftink" false)
               (always_replies (bare "failed")) "memo.webm").
Proof.
  apply (@validation_failed_rejects_at_once demo
           (sample_engine "swiftink" false) "memo.webm"
           (always_replies (bare "validation_failed")) "42" (bare "validation_failed")
           (always_replies (bare "failed")) "42" (bare "failed")); reflexivity.
Defined.

Lemma fieldless_complete_is_polled_until_timeout_witness :
  snd (swiftink_run (sample_engine "swiftink" true)
         (always_replies (bare "complete")) "memo.webm")
  = Rejected (RejString took_too_long)
  /\ status_requests
       (fst (swiftink_run (sample_engine "swiftink" true)
               (always_replies (bare "complete")) "memo.webm"))
     = 202%nat.
Proof.
  apply (@fieldless_complete_is_polled_until_timeout demo
           (sample_engine "swiftink" true)
           (always_replies (bare "complete")) "memo.webm" "42").
  - reflexivity.
  - intros k. exists (bare "complete"). split; [reflexivity|].
    split; [reflexivity | left; reflexivity].
Defined.

(** ** Trimming *)

Lemma trim_start_splits (s : string) :
  exists white, s = white +++ trim_start s /\ all_white white = true.
Proof.
  induction s as [|c rest (white & Hrest & Hwhite)]; [now exists ""|].
  cbn [trim_start]. destruct (is_white_space c) eqn:Hc.
  - exists (String c white). cbn. now rewrite Hc, Hwhite, <- Hrest.
  - now exists "".
Qed.

Lemma trim_end_splits (s : string) :
  exists white, s = trim_end s +++ white /\ all_white white = true.
Proof.
  induction s as [|c rest (white & Hrest & Hwhite)]; [now exists ""|].
  cbn [trim_end]. destruct (trim_end rest) as [|k kept].
  - cbn in Hrest. subst white. destruct (is_white_space c) eqn:Hc.
    + exists (String c rest). cbn. now rewrite Hc, Hwhite.
    + exists rest. now cbn.
  - exists white. cbn. now rewrite Hrest at 1.
Qed.

Lemma trim_start_clean (s : string) : starts_white (trim_start s) = false.
Proof.
  induction s as [|c rest IH]; [reflexivity|].
  cbn [trim_start]. destruct (is_white_space c) eqn:Hc; [exact IH | exact Hc].
Qed.

Lemma trim_end_clean (s : string) : ends_white (trim_end s) = false.
Proof.
  induction s as [|c rest IH]; [reflexivity|].
  cbn [trim_end]. destruct (trim_end rest) as [|k kept].
  - destruct (is_white_space c) eqn:Hc; [reflexivity | exact Hc].
  - exact IH.
Qed.

Lemma trim_end_keeps_start (s : string) :
  starts_white s = false -> starts_white (trim_end s) = false.
Proof.
  destruct s as [|c rest]; [reflexivity|].
  cbn [trim_end starts_white]. intros Hc.
  destruct (trim_end rest); [rewrite Hc|]; trivial.
Qed.

(** [trim] removes white space at both ends and nothing else. *)
Lemma trim_spec (s : string) :
  (exists front back,
      s = front +++ trim s +++ back
      /\ all_white front = true /\ all_white back = true)
  /\ starts_white (trim s) = false
  /\ ends_white (trim s) = false.
Proof.
  unfold trim. repeat split.
  - destruct (trim_start_splits s) as (front & Hs & Hfront).
    destruct (trim_end_splits (trim_start s)) as (back & Ht & Hback).
    exists front, back. repeat split; trivial.
    now rewrite <- Ht.
  - apply trim_end_keeps_start, trim_start_clean.
  - apply trim_end_clean.
Qed.

Lemma trim_leading_space (s : string) : trim (" " +++ s) = trim s.
Proof. reflexivity. Qed.

(** Prefixing every fragment with a space is joining with single spaces,
    after one leading space. *)
Lemma spaced_is_joined (fragment : string) (rest : list string) :
  concat_lines (map (String.append " ") (fragment :: rest))
  = " " +++ String.concat " " (fragment :: rest).
Proof.
  revert fragment. induction rest as [|next rest IH]; intros fragment.
  - cbn. now rewrite append_empty_r.
  - change (concat_lines (map (String.append " ") (fragment :: next :: rest)))
      with ((" " +++ fragment) +++
            concat_lines (map (String.append " ") (next :: rest))).
    rewrite IH. cbn [String.concat]. now rewrite append_assoc.
Qed.

Lemma trim_spaced (fragments : list string) :
  trim (concat_lines (map (String.append " ") fragments))
  = trim (String.concat " " fragments).
Proof.
  destruct fragments as [|fragment rest]; [reflexivity|].
  rewrite spaced_is_joined. apply trim_leading_space.
Qed.

(** ** The event-driven adapter *)

Lemma feed_app (front back : list SdkEvent) (s : Session) :
  feed (front ++ back) s = feed back (feed front s).
Proof. unfold feed. apply fold_left_app. Qed.

(** Recognized speech only grows the accumulator. *)
Lemma feed_speech (fragments : list string) :
  forall s,
    promise s = Unsettled ->
    feed (speech fragments) s
    = {| heard := heard s +++ concat_lines (map (String.append " ") fragments);
         promise := Unsettled;
         notified := notified s;
         effects := effects s |}.
Proof.
  induction fragments as [|fragment rest IH]; intros [text p n tr] Hp;
    cbn in Hp; subst p.
  - cbn. now rewrite append_empty_r.
  - cbn [speech map feed fold_left]. unfold fire at 2. cbn [handler recognized].
    unfold run_reactions. cbn [promise heard notified effects].
    change (fold_left fire (map (OnRecognized RecognizedSpeech) rest) ?s)
      with (feed (speech rest) s).
    rewrite IH by reflexivity. cbn [heard notified effects concat_lines].
    now rewrite !append_assoc.
Qed.

(** The session once the given fragments have been recognized. *)
Lemma after_speech (this : TranscriptionEngine) (fragments : list string) :
  feed (speech fragments) (session_started this)
  = {| heard := concat_lines (map (String.append " ") fragments);
       promise := Unsettled;
       notified := false;
       effects := [make_recognizer this; StartContinuousRecognition] |}.
Proof. now rewrite feed_speech. Qed.

(** C7: recognized speech ["hello"] then ["world"], then the session-stopped
    event: the promise resolves to ["hello world"].  In general the
    accumulator holds the fragments in arrival order, each after one space,
    and the session-stopped event resolves the promise with the fragments
    joined by single spaces and trimmed at both ends. *)
Theorem hello_world_then_session_stopped (this : TranscriptionEngine) (file : TFile) :
  snd (getTranscriptionAzure this
         (sample_service [OnRecognized RecognizedSpeech "hello";
                          OnRecognized RecognizedSpeech "world";
                          OnSessionStopped]) file)
  = Resolved "hello world"
  /\ forall fragments : list string,
      heard (feed (speech fragments) (session_started this))
      = concat_lines (map (String.append " ") fragments)
      /\ snd (getTranscriptionAzure this
                (sample_service (speech fragments ++ [OnSessionStopped])) file)
         = Resolved (trim (String.concat " " fragments))
      /\ starts_white (trim (String.concat " " fragments)) = false
      /\ ends_white (trim (String.concat " " fragments)) = false.
Proof.
  assert (General : forall fragments,
             snd (getTranscriptionAzure this
                    (sample_service (speech fragments ++ [OnSessionStopped])) file)
             = Resolved (trim (String.concat " " fragments))).
  { intros fragments.
    unfold getTranscriptionAzure, azure_session. cbn [wav_ready fired sample_service snd].
    rewrite feed_app, after_speech.
    cbn [feed fold_left fire handler sessionStopped resolve log_effect
         stopContinuousRecognitionAsync run_reactions
         promise notified heard effects outcome_of].
    now rewrite trim_spaced. }
  split.
  - apply (General ["hello"; "world"]).
  - intros fragments. rewrite after_speech. cbn [heard].
    destruct (trim_spec (String.concat " " fragments)) as (_ & Hstart & Hend).
    auto.
Qed.

(** With the promise unsettled, events that do not settle it leave it so;
    nothing is resolved, rejected or notified, and each cancellation asks
    the session to stop. *)
Lemma feed_without_settling (events : list SdkEvent) :
  forall s,
    promise s = Unsettled ->
    forallb (fun ev => negb (settles ev)) events = true ->
    promise (feed events s) = Unsettled
    /\ notified (feed events s) = notified s
    /\ effects (feed events s)
       = effects s ++ repeat StopContinuousRecognition
                        (length (filter is_cancellation events)).
Proof.
  induction events as [|ev rest IH]; intros [text p n tr] Hp Hquiet;
    cbn in Hp; subst p.
  - cbn. now rewrite app_nil_r.
  - cbn [forallb] in Hquiet. apply andb_true_iff in Hquiet as [Hev Hrest].
    cbn [feed fold_left].
    change (fold_left fire rest ?s) with (feed rest s).
    destruct ev as [[] result_text | [] details | ]; try discriminate Hev;
      cbn [fire handler recognized canceled stopContinuousRecognitionAsync
           log_effect run_reactions promise notified heard effects];
      match goal with
      | |- context [feed rest ?s'] =>
        destruct (IH s' eq_refl Hrest) as (-> & -> & ->)
      end;
      cbn [promise notified effects filter is_cancellation length repeat
           canceled stopContinuousRecognitionAsync log_effect heard];
      rewrite <- ?app_assoc; auto.
Qed.

Lemma no_settle_call_among_stops (n : nat) (tr : list Effect) :
  filter is_settle_call (tr ++ repeat StopContinuousRecognition n)
  = filter is_settle_call tr.
Proof.
  rewrite filter_app.
  induction n as [|n IH]; cbn; [apply app_nil_r | exact IH].
Qed.

Lemma no_notify_among_stops (n : nat) (tr : list Effect) :
  filter is_notify (tr ++ repeat StopContinuousRecognition n)
  = filter is_notify tr.
Proof.
  rewrite filter_app.
  induction n as [|n IH]; cbn; [apply app_nil_r | exact IH].
Qed.

Lemma stops_of_repeat (n : nat) : stops (repeat StopContinuousRecognition n) = n.
Proof. unfold stops. induction n as [|n IH]; cbn; [reflexivity | now rewrite IH]. Qed.

Lemma stops_app (xs ys : list Effect) : stops (xs ++ ys) = stops xs + stops ys.
Proof. unfold stops. now rewrite filter_app, length_app. Qed.

(** C10: the handler of a cancellation whose reason is not [Error] asks the
    session to stop and does nothing else.  If every event that fires is
    recognized speech, a result that is not a no-match, or such a
    cancellation, the promise is still pending afterwards: [resolve] and
    [reject] were never called, no caller was resumed, and the session was
    asked to stop once per cancellation. *)
Theorem cancellation_without_error_never_settles
        (this : TranscriptionEngine) (file : TFile) (events : list SdkEvent) :
  forallb (fun ev => negb (settles ev)) events = true ->
  (forall s details,
      handler (OnCanceled EndOfStream details) s = stopContinuousRecognitionAsync s
      /\ handler (OnCanceled CancelledByUser details) s
         = stopContinuousRecognitionAsync s)
  /\ snd (getTranscriptionAzure this (sample_service events) file) = Pending
  /\ filter is_settle_call
       (fst (getTranscriptionAzure this (sample_service events) file)) = []
  /\ filter is_notify
       (fst (getTranscriptionAzure this (sample_service events) file)) = []
  /\ stops (fst (getTranscriptionAzure this (sample_service events) file))
     = length (filter is_cancellation events).
Proof.
  intros Hquiet. split; [intros s details; split; reflexivity|].
  unfold getTranscriptionAzure, azure_session.
  cbn [wav_ready fired sample_service fst snd].
  destruct (feed_without_settling events (session_started this) eq_refl Hquiet)
    as (Hpromise & _ & Heffects).
  rewrite Hpromise, Heffects. cbn [outcome_of].
  rewrite no_settle_call_among_stops, no_notify_among_stops, stops_app, stops_of_repeat.
  cbn [session_started effects]. unfold make_recognizer.
  destruct (azureLang (settings this) =? "auto")%string; repeat split; reflexivity.
Qed.

Lemma cancellation_without_error_never_settles_witness :
  forallb (fun ev => negb (settles ev))
          [OnRecognized RecognizedSpeech "hello"; OnCanceled EndOfStream ""] = true
  /\ snd (getTranscriptionAzure (sample_engine "azure_speech_service" false)
            (sample_service [OnRecognized RecognizedSpeech "hello";
                             OnCanceled EndOfStream ""]) "memo.webm")
     = Pending.
Proof.
  split; [reflexivity|].
  apply (cancellation_without_error_never_settles
           (sample_engine "azure_speech_service" false) "memo.webm"
           [OnRecognized RecognizedSpeech "hello"; OnCanceled EndOfStream ""]).
  reflexivity.
Defined.

(** C8, checked against the code: the three ways the promise is settled,
    after any recognized speech.  On the error path [reject] is called,
    the session is asked to stop, and only then is the awaiting caller
    resumed with the rejection; the session-stopped path asks the session to
    stop as well; the no-match path resolves the promise and resumes the
    caller without ever asking the session to stop. *)
Theorem no_match_path_never_stops_the_session
        (this : TranscriptionEngine) (file : TFile)
        (fragments : list string) (result_text details : string) :
  getTranscriptionAzure this
    (sample_service (speech fragments ++ [OnCanceled Error details])) file
  = ([make_recognizer this; StartContinuousRecognition;
      CallReject (RejCanceled details);
      StopContinuousRecognition;
      Notify (Rejected (RejCanceled details))],
     Rejected (RejCanceled details))
  /\ getTranscriptionAzure this
       (sample_service (speech fragments ++ [OnSessionStopped])) file
     = ([make_recognizer this; StartContinuousRecognition;
         CallResolve (trim (String.concat " " fragments));
         StopContinuousRecognition;
         Notify (Resolved (trim (String.concat " " fragments)))],
        Resolved (trim (String.concat " " fragments)))
  /\ getTranscriptionAzure this
       (sample_service (speech fragments ++ [OnRecognized NoMatch result_text])) file
     = ([make_recognizer this; StartContinuousRecognition;
         CallResolve (trim (String.concat " " fragments));
         Notify (Resolved (trim (String.concat " " fragments)))],
        Resolved (trim (String.concat " " fragments)))
  /\ stops (fst (getTranscriptionAzure this
                   (sample_service (speech fragments ++ [OnRecognized NoMatch result_text]))
                   file))
     = 0%nat.
Proof.
  assert (Hno_match :
            getTranscriptionAzure this
              (sample_service (speech fragments ++ [OnRecognized NoMatch result_text])) file
            = ([make_recognizer this; StartContinuousRecognition;
                CallResolve (trim (String.concat " " fragments));
                Notify (Resolved (trim (String.concat " " fragments)))],
               Resolved (trim (String.concat " " fragments)))).
  { unfold getTranscriptionAzure, azure_session. cbn [wav_ready fired sample_service].
    rewrite feed_app, after_speech.
    cbn [feed fold_left fire handler recognized resolve log_effect
         run_reactions promise notified heard effects outcome_of app].
    now rewrite trim_spaced. }
  repeat split.
  - unfold getTranscriptionAzure, azure_session. cbn [wav_ready fired sample_service].
    rewrite feed_app, after_speech. reflexivity.
  - unfold getTranscriptionAzure, azure_session. cbn [wav_ready fired sample_service].
    rewrite feed_app, after_speech.
    cbn [feed fold_left fire handler sessionStopped resolve log_effect
         stopContinuousRecognitionAsync run_reactions
         promise notified heard effects outcome_of app].
    now rewrite trim_spaced.
  - exact Hno_match.
  - rewrite Hno_match. cbn [fst]. unfold stops, make_recognizer.
    destruct (azureLang (settings this) =? "auto")%string; reflexivity.
Qed.

(** ** The dispatcher *)

(** The registry's keys. *)
Lemma registered_names (name : string) (b : Backend) :
  own_property transcription_engines name = Some b
  <-> In (name, b) transcription_engines.
Proof.
  unfold transcription_engines. cbn [own_property In]. split.
  - destruct (String.eqb_spec "swiftink" name) as [<-|_];
      [intros [= <-]; auto|].
    destruct (String.eqb_spec "whisper_asr" name) as [<-|_];
      [intros [= <-]; auto|].
    destruct (String.eqb_spec "azure_speech_service" name) as [<-|_];
      [intros [= <-]; auto 6|].
    discriminate.
  - intros [[= <- <-] | [[= <- <-] | [[= <- <-] | []]]]; reflexivity.
Qed.

Section DispatcherFacts.
Variable this : TranscriptionEngine.
Variable methods : Backend -> TFile -> Run.
Variable elapsed : Z.


(** C4, as amended: for a name that is not a key of the registry no adapter
    is run; the returned promise is rejected with the [TypeError] that
    calling the looked-up value raises.  It is never resolved, so no empty
    transcript is produced, and the outcome does not depend on how the
    adapters would have run. *)
Theorem unknown_backend_rejects_with_TypeError (file : TFile) :
  own_property transcription_engines (transcription_engine (settings this)) = None ->
  getTranscription this methods elapsed file
  = ((if debug (settings this)
      then [ConsoleLog (LStr ("Transcription engine: "
                              +++ transcription_engine (settings this)))]
      else []),
     Rejected RejTypeError)
  /\ (forall transcript,
         snd (getTranscription this methods elapsed file) <> Resolved transcript)
  /\ (forall methods',
         getTranscription this methods' elapsed file
         = getTranscription this methods elapsed file).
Proof.
  intros Hunknown.
  assert (Hrun : forall m,
             getTranscription this m elapsed file
             = ((if debug (settings this)
                 then [ConsoleLog (LStr ("Transcription engine: "
                                         +++ transcription_engine (settings this)))]
                 else []),
                Rejected RejTypeError)).
  { intros m. unfold getTranscription, get_property. rewrite Hunknown.
    destruct (existsb _ _); reflexivity. }
  split; [apply Hrun|]. split.
  - intros transcript. rewrite Hrun. discriminate.
  - intros methods'. now rewrite !Hrun.
Qed.

End DispatcherFacts.

(** C4, refuted as stated: the name [whisper] is no key of the registry;
    the promise is rejected with the runtime's [TypeError], which is not a
    failure that names the unknown backend. *)
Lemma unknown_backend_failure_is_a_bare_TypeError :
  own_property transcription_engines "whisper" = None
  /\ getTranscription (sample_engine "whisper" false)
       (sample_methods (sample_engine "whisper" false)) 0 "memo.webm"
     = ([ConsoleLog (LStr "Transcription engine: whisper")], Rejected RejTypeError)
  /\ ~ identifiable_failure
         (snd (getTranscription (sample_engine "whisper" false)
                 (sample_methods (sample_engine "whisper" false)) 0 "memo.webm")).
Proof.
  split; [reflexivity|]. split; [reflexivity|].
  cbn. intros [].
Qed.

Lemma unknown_backend_rejects_with_TypeError_witness :
  own_property transcription_engines "whisper" = None
  /\ snd (getTranscription (sample_engine "whisper" false)
            (sample_methods (sample_engine "whisper" false)) 0 "memo.webm")
     = Rejected RejTypeError.
Proof.
  split; [reflexivity|].
  destruct (unknown_backend_rejects_with_TypeError
              (sample_engine "whisper" false)
              (sample_methods (sample_engine "whisper" false)) 0 "memo.webm"
              eq_refl) as [Hrun _].
  rewrite Hrun. reflexivity.
Defined.



(* ===================================================================== *)
(** * Part III: further properties of the code *)
(* ===================================================================== *)

(** ** The poll loop, round by round *)

Lemma sleeps_app (xs ys : list Effect) : sleeps (xs ++ ys) = sleeps xs + sleeps ys.
Proof. unfold sleeps. now rewrite filter_app, length_app. Qed.

Lemma slept_ms_app (xs ys : list Effect) :
  slept_ms (xs ++ ys) = (slept_ms xs + slept_ms ys)%Z.
Proof.
  induction xs as [|e xs IH]; [reflexivity|].
  destruct e; cbn [app slept_ms]; rewrite IH; lia.
Qed.

Section RoundFacts.
Context `{DateHost}.
Variable this : TranscriptionEngine.
Variable remote : Remote.

(** One turn of the loop is one status request followed by [round_of]. *)
Lemma poll_loop_round (fuel : nat) (url : string) (tries : Z) (w : World) :
  poll_loop this remote (S fuel) url tries w
  = let round := round_of this tries (poll_reply remote (polls w)) in
    let w' := {| polls := S (polls w);
                 trace := trace w
                            ++ HttpGet url (swiftinkToken (settings this))
                            :: fst round |} in
    match snd round with
    | EndReturn transcription => (Returned transcription, w')
    | EndThrow r => (Thrown r, w')
    | GoOn => poll_loop this remote fuel url (tries + 1)%Z w'
    end.
Proof.
  cbn [poll_loop]. unfold bind at 1. unfold requestUrl_get at 1.
  unfold round_of, announce.
  destruct (poll_reply remote (polls w)) as [t|e]; [|reflexivity].
  unfold bind, when, perform, ret, reject, sleep, perform.
  destruct (debug (settings this));
    destruct (status t =? "complete")%string;
    destruct (text_segments t); destruct (text t);
    destruct (max_tries <? tries)%Z;
    destruct (status t =? "failed")%string;
    destruct (status t =? "validation_failed")%string;
    destruct (1 <=? verbosity (settings this))%Z;
    destruct (has_status_bar this);
    destruct (timestamps (settings this));
    try match goal with
        | |- context [segmentsToTimestampedString ?a ?b] =>
          destruct (segmentsToTimestampedString a b)
        end;
    cbn [polls trace fst snd app]; rewrite <- ?app_assoc; reflexivity.
Qed.

(** A round that goes on did nothing but log and sleep. *)
Lemma waiting_round_effects (tries : Z) (reply : Awaited Transcription) :
  snd (round_of this tries reply) = GoOn ->
  fst (round_of this tries reply)
  = (if debug (settings this) then [ConsoleLog LObject] else [])
      ++ [SleepMs sleep_time]
  /\ (tries <= max_tries)%Z.
Proof.
  unfold round_of. destruct reply as [t|e]; [|discriminate].
  destruct (Z.ltb_spec max_tries tries);
    destruct (status t =? "complete")%string;
    destruct (text_segments t); destruct (text t);
    destruct (status t =? "failed")%string;
    destruct (status t =? "validation_failed")%string;
    destruct (timestamps (settings this));
    try match goal with
        | |- context [segmentsToTimestampedString ?a ?b] =>
          destruct (segmentsToTimestampedString a b)
        end;
    cbn [fst snd]; try discriminate; auto.
Qed.

(** A round that ends made no further request and did not sleep. *)
Lemma final_round_effects (tries : Z) (reply : Awaited Transcription) :
  snd (round_of this tries reply) <> GoOn ->
  status_requests (fst (round_of this tries reply)) = 0%nat
  /\ sleeps (fst (round_of this tries reply)) = 0%nat
  /\ slept_ms (fst (round_of this tries reply)) = 0%Z.
Proof.
  unfold round_of. destruct reply as [t|e]; [|auto].
  destruct (debug (settings this));
    destruct (max_tries <? tries)%Z;
    destruct (status t =? "complete")%string;
    destruct (text_segments t); destruct (text t);
    destruct (status t =? "failed")%string;
    destruct (status t =? "validation_failed")%string;
    destruct (1 <=? verbosity (settings this))%Z;
    destruct (has_status_bar this);
    cbn [fst snd]; intros Hend; try (now elim Hend); auto.
Qed.

(** The whole loop: [n] waiting rounds, then the round that ends it. *)
Lemma poll_loop_shape (id : string) (fuel : nat) :
  forall (tries : Z) (w : World),
    (tries <= max_tries + 1)%Z ->
    (max_tries + 2 <= tries + Z.of_nat fuel)%Z ->
    exists n : nat,
      (tries + Z.of_nat n <= max_tries + 1)%Z
      /\ (forall k, (k < n)%nat ->
            snd (round_of this (tries + Z.of_nat k)
                          (poll_reply remote (polls w + k))) = GoOn)
      /\ snd (round_of this (tries + Z.of_nat n)
                       (poll_reply remote (polls w + n))) <> GoOn
      /\ poll_loop this remote fuel (status_url this id) tries w
         = (completion_of
              (snd (round_of this (tries + Z.of_nat n)
                             (poll_reply remote (polls w + n)))),
            {| polls := polls w + S n;
               trace := trace w ++ waiting_rounds this n id
                          ++ status_request this id
                          :: fst (round_of this (tries + Z.of_nat n)
                                           (poll_reply remote (polls w + n))) |}).
Proof.
  induction fuel as [|fuel IH]; intros tries w Hhi Hlo.
  - unfold max_tries in *. lia.
  - rewrite poll_loop_round. cbv zeta.
    destruct (snd (round_of this tries (poll_reply remote (polls w)))) eqn:Hend.
    1, 2: exists 0%nat; rewrite Z.add_0_r, !Nat.add_0_r, Hend;
      repeat split; [lia | intros k Hk; lia | discriminate |
                     cbn [waiting_rounds app completion_of];
                     now rewrite Nat.add_1_r].
    destruct (waiting_round_effects _ _ Hend) as [Heffects Hwithin].
    destruct (IH (tries + 1)%Z
                 {| polls := S (polls w);
                    trace := trace w
                               ++ HttpGet (status_url this id)
                                          (swiftinkToken (settings this))
                               :: fst (round_of this tries
                                                (poll_reply remote (polls w))) |})
      as (n & Hbound & Hwait & Hlast & Hrun); [lia | lia |].
    cbn [polls trace] in Hwait, Hlast, Hrun.
    exists (S n).
    replace (tries + Z.of_nat (S n))%Z with (tries + 1 + Z.of_nat n)%Z by lia.
    replace (polls w + S n)%nat with (S (polls w) + n)%nat by lia.
    repeat split; [lia | | exact Hlast |].
    + intros [|k] Hk.
      * now rewrite Z.add_0_r, Nat.add_0_r.
      * replace (tries + Z.of_nat (S k))%Z with (tries + 1 + Z.of_nat k)%Z by lia.
        replace (polls w + S k)%nat with (S (polls w) + k)%nat by lia.
        apply Hwait. lia.
    + rewrite Hrun, Heffects. f_equal. f_equal; [lia|].
      cbn [waiting_rounds]. unfold waiting_round, status_request.
      repeat (rewrite <- app_assoc || rewrite <- app_comm_cons). reflexivity.
Qed.

(** Up to the loop, with the effects spelled out. *)
Lemma swiftink_preamble (file : TFile) (id : string) :
  create_reply remote = Arrived id ->
  getTranscriptionSwiftink this remote file initial_world
  = poll_loop this remote poll_budget (status_url this id) 0%Z
              {| polls := 0; trace := preamble this |}.
Proof.
  intros Hcreate.
  unfold getTranscriptionSwiftink, announce, preamble, status_url, api_base.
  unfold bind at 1; unfold requestUrl_post at 1; rewrite Hcreate.
  destruct (debug (settings this));
    destruct (1 <=? verbosity (settings this))%Z;
    destruct (has_status_bar this);
    unfold bind, when, perform, ret; cbn [polls trace app]; reflexivity.
Qed.

(** A whole run after a successful creation. *)
Lemma swiftink_run_shape (file : TFile) (id : string) :
  create_reply remote = Arrived id ->
  exists n : nat,
    (n <= 201)%nat
    /\ (forall k, (k < n)%nat ->
          snd (round_of this (Z.of_nat k) (poll_reply remote k)) = GoOn)
    /\ snd (round_of this (Z.of_nat n) (poll_reply remote n)) <> GoOn
    /\ swiftink_run this remote file
       = (preamble this ++ waiting_rounds this n id
            ++ status_request this id
            :: fst (round_of this (Z.of_nat n) (poll_reply remote n)),
          outcome_of_ending
            (snd (round_of this (Z.of_nat n) (poll_reply remote n)))).
Proof.
  intros Hcreate.
  destruct (poll_loop_shape id poll_budget 0%Z {| polls := 0; trace := preamble this |})
    as (n & Hbound & Hwait & Hlast & Hrun).
  { unfold max_tries. lia. }
  { cbn. unfold max_tries. lia. }
  cbn [polls trace Nat.add Z.add] in Hwait, Hlast, Hrun.
  exists n. repeat split.
  - unfold max_tries in Hbound. lia.
  - exact Hwait.
  - exact Hlast.
  - unfold swiftink_run, run_async.
    rewrite (swiftink_preamble file id Hcreate), Hrun.
    destruct (snd (round_of this (Z.of_nat n) (poll_reply remote n)));
      [reflexivity | reflexivity | now elim Hlast].
Qed.

End RoundFacts.

(** ** Counting over the pieces of a run *)

Section PieceFacts.
Context `{DateHost}.
Variable this : TranscriptionEngine.

Lemma preamble_counts :
  status_requests (preamble this) = 0%nat
  /\ sleeps (preamble this) = 0%nat
  /\ slept_ms (preamble this) = 0%Z.
Proof.
  unfold preamble.
  destruct (debug (settings this));
    destruct (1 <=? verbosity (settings this))%Z;
    destruct (has_status_bar this); repeat split; reflexivity.
Qed.

Lemma waiting_rounds_counts (n : nat) (id : string) :
  status_requests (waiting_rounds this n id) = n
  /\ sleeps (waiting_rounds this n id) = n
  /\ slept_ms (waiting_rounds this n id) = (sleep_time * Z.of_nat n)%Z.
Proof.
  induction n as [|n (IHr & IHs & IHm)]; [repeat split; reflexivity|].
  cbn [waiting_rounds].
  rewrite status_requests_app, sleeps_app, slept_ms_app, IHr, IHs, IHm.
  assert (Hround : status_requests (waiting_round this id) = 1%nat
                   /\ sleeps (waiting_round this id) = 1%nat
                   /\ slept_ms (waiting_round this id) = sleep_time).
  { unfold waiting_round, status_request.
    destruct (debug (settings this)); repeat split; reflexivity. }
  destruct Hround as (-> & -> & ->).
  unfold sleep_time. repeat split; lia.
Qed.

Lemma waiting_rounds_requests (n : nat) (id : string) :
  filter is_status_request (waiting_rounds this n id)
  = repeat (status_request this id) n.
Proof.
  induction n as [|n IH]; [reflexivity|].
  cbn [waiting_rounds repeat]. rewrite filter_app, IH.
  unfold waiting_round, status_request.
  destruct (debug (settings this)); reflexivity.
Qed.

Lemma waiting_rounds_show_nothing (n : nat) (id : string) :
  progress_messages (waiting_rounds this n id) = [].
Proof.
  unfold progress_messages.
  induction n as [|n IH]; [reflexivity|].
  cbn [waiting_rounds]. rewrite filter_app, IH.
  unfold waiting_round, status_request.
  destruct (debug (settings this)); reflexivity.
Qed.

Lemma waiting_rounds_console (n : nat) (id : string) :
  debug (settings this) = false ->
  console_output (waiting_rounds this n id) = [].
Proof.
  intros Hdebug. unfold console_output.
  induction n as [|n IH]; [reflexivity|].
  cbn [waiting_rounds]. rewrite filter_app, IH.
  unfold waiting_round, status_request. now rewrite Hdebug.
Qed.

(** What the last round shows and where it sends nothing: the completion
    message belongs to the success branch, which is entered before the
    formatter is called. *)
Lemma final_round_messages (tries : Z) (reply : Awaited Transcription) :
  filter is_status_request (fst (round_of this tries reply)) = []
  /\ progress_messages (fst (round_of this tries reply))
     = (if answers_success reply && (1 <=? verbosity (settings this))%Z
        then [complete_message this] else [])
  /\ (debug (settings this) = false ->
      console_output (fst (round_of this tries reply)) = [])
  /\ (forall transcription,
         snd (round_of this tries reply) = EndReturn transcription ->
         answers_success reply = true).
Proof.
  unfold round_of, complete_message, answers_success, is_success.
  destruct reply as [t|e]; [|repeat split; try reflexivity; discriminate].
  destruct (debug (settings this));
    destruct (max_tries <? tries)%Z;
    destruct (status t =? "complete")%string;
    destruct (text_segments t); destruct (text t);
    destruct (status t =? "failed")%string;
    destruct (status t =? "validation_failed")%string;
    destruct (1 <=? verbosity (settings this))%Z;
    destruct (has_status_bar this);
    cbn [fst snd andb]; repeat split; try reflexivity; try discriminate.
Qed.

(** A round that ends neither requests nor sleeps. *)
Lemma final_round_pacing (tries : Z) (reply : Awaited Transcription) :
  snd (round_of this tries reply) <> GoOn ->
  filter is_request_or_sleep (fst (round_of this tries reply)) = [].
Proof.
  unfold round_of. destruct reply as [t|e]; [|reflexivity].
  destruct (debug (settings this));
    destruct (max_tries <? tries)%Z;
    destruct (status t =? "complete")%string;
    destruct (text_segments t); destruct (text t);
    destruct (status t =? "failed")%string;
    destruct (status t =? "validation_failed")%string;
    destruct (1 <=? verbosity (settings this))%Z;
    destruct (has_status_bar this);
    cbn [fst snd]; intros Hend; try (now elim Hend); reflexivity.
Qed.

Lemma waiting_rounds_pacing (n : nat) (id : string) (last : list Effect) :
  filter is_request_or_sleep last = [] ->
  filter is_request_or_sleep
         (waiting_rounds this n id ++ status_request this id :: last)
  = paced (status_request this id) sleep_time n.
Proof.
  intros Hlast.
  induction n as [|n IH].
  - cbn [waiting_rounds app paced]. cbn [filter is_request_or_sleep].
    unfold status_request at 1. cbn [is_status_request orb]. now rewrite Hlast.
  - cbn [waiting_rounds paced]. rewrite <- app_assoc, filter_app, IH.
    unfold waiting_round, status_request.
    destruct (debug (settings this)); reflexivity.
Qed.

Lemma preamble_pacing :
  filter is_request_or_sleep (preamble this) = [].
Proof.
  unfold preamble.
  destruct (debug (settings this));
    destruct (1 <=? verbosity (settings this))%Z;
    destruct (has_status_bar this); reflexivity.
Qed.

Lemma waiting_rounds_http (n : nat) (id : string) :
  filter is_http (waiting_rounds this n id) = repeat (status_request this id) n.
Proof.
  induction n as [|n IH]; [reflexivity|].
  cbn [waiting_rounds repeat]. rewrite filter_app, IH.
  unfold waiting_round, status_request.
  destruct (debug (settings this)); reflexivity.
Qed.

Lemma preamble_http :
  filter is_http (preamble this)
  = [HttpPost (api_base this +++ "/transcripts/")
              (swiftinkToken (settings this)) (translate (settings this))].
Proof.
  unfold preamble.
  destruct (debug (settings this));
    destruct (1 <=? verbosity (settings this))%Z;
    destruct (has_status_bar this); reflexivity.
Qed.

Lemma final_round_http (tries : Z) (reply : Awaited Transcription) :
  filter is_http (fst (round_of this tries reply)) = [].
Proof.
  unfold round_of. destruct reply as [t|e]; [|reflexivity].
  destruct (debug (settings this));
    destruct (max_tries <? tries)%Z;
    destruct (status t =? "complete")%string;
    destruct (text_segments t); destruct (text t);
    destruct (status t =? "failed")%string;
    destruct (status t =? "validation_failed")%string;
    destruct (1 <=? verbosity (settings this))%Z;
    destruct (has_status_bar this); reflexivity.
Qed.

End PieceFacts.

(** ** Whole runs of the create-then-poll adapter *)

Section RunFacts.
Context `{DateHost}.
Variable this : TranscriptionEngine.
Variable remote : Remote.

(** The counts of a run: nothing polled when the job could not be created,
    otherwise [n] waiting rounds and one more request. *)
Lemma swiftink_run_counts (file : TFile) :
  (status_requests (fst (swiftink_run this remote file)) = 0%nat
   /\ sleeps (fst (swiftink_run this remote file)) = 0%nat
   /\ slept_ms (fst (swiftink_run this remote file)) = 0%Z
   /\ snd (swiftink_run this remote file) <> Pending)
  \/ (exists n : nat,
         (n <= 201)%nat
         /\ status_requests (fst (swiftink_run this remote file)) = S n
         /\ sleeps (fst (swiftink_run this remote file)) = n
         /\ slept_ms (fst (swiftink_run this remote file))
            = (sleep_time * Z.of_nat n)%Z
         /\ snd (swiftink_run this remote file) <> Pending).
Proof.
  destruct (create_reply remote) as [id|e] eqn:Hcreate.
  - right.
    destruct (swiftink_run_shape this remote file id Hcreate)
      as (n & Hn & _ & Hlast & ->).
    exists n. cbn [fst snd].
    destruct (preamble_counts this) as (Pr & Ps & Pm).
    destruct (waiting_rounds_counts this n id) as (Wr & Ws & Wm).
    destruct (final_round_effects this _ _ Hlast) as (Fr & Fs & Fm).
    change (status_request this id :: ?l) with ([status_request this id] ++ l).
    rewrite !status_requests_app, !sleeps_app, !slept_ms_app.
    rewrite Pr, Ps, Pm, Wr, Ws, Wm, Fr, Fs, Fm.
    repeat split; try (cbn; lia).
    destruct (snd (round_of this (Z.of_nat n) (poll_reply remote n)));
      [discriminate | discriminate | now elim Hlast].
  - left.
    assert (E : swiftink_run this remote file
                = ([HttpPost (api_base this +++ "/transcripts/")
                             (swiftinkToken (settings this))
                             (translate (settings this))],
                   Rejected (RejRaised e))).
    { unfold swiftink_run, run_async, getTranscriptionSwiftink.
      unfold bind at 1; unfold requestUrl_post at 1; rewrite Hcreate.
      reflexivity. }
    rewrite E. repeat split; try reflexivity. discriminate.
Qed.

End RunFacts.

Lemma swiftink_creation_failure_run `{DateHost}
      (this : TranscriptionEngine) (remote : Remote) (file : TFile) (e : string) :
  create_reply remote = Raised e ->
  swiftink_run this remote file
  = ([HttpPost (api_base this +++ "/transcripts/")
               (swiftinkToken (settings this)) (translate (settings this))],
     Rejected (RejRaised e)).
Proof.
  intros Hcreate.
  unfold swiftink_run, run_async, getTranscriptionSwiftink.
  unfold bind at 1; unfold requestUrl_post at 1; rewrite Hcreate.
  reflexivity.
Qed.

(** X1: For every service, the adapter's promise settles, and it does so within
    202 status requests. *)
Theorem swiftink_settles_within_202_requests `{DateHost}
        (this : TranscriptionEngine) (remote : Remote) (file : TFile) :
  snd (swiftink_run this remote file) <> Pending
  /\ (status_requests (fst (swiftink_run this remote file)) <= 202)%nat.
Proof.
  destruct (swiftink_run_counts this remote file)
    as [(-> & _ & _ & Hsettled) | (n & Hn & -> & _ & _ & Hsettled)];
    split; trivial; lia.
Qed.

(** X2: The status requests and the sleeps of a run, taken in order, are a
    request, a sleep of 3000 ms, a request, a sleep of 3000 ms, and so on,
    ending with a request: one sleep of 3000 ms between every two
    consecutive status requests, and none before the first request or after
    the last.  There are at most 201 sleeps, 603 seconds in all.  When the
    job cannot be created there are neither requests nor sleeps. *)
Theorem swiftink_sleeps_between_requests `{DateHost}
        (this : TranscriptionEngine) (remote : Remote) (file : TFile) :
  match create_reply remote with
  | Raised _ =>
    filter is_request_or_sleep (fst (swiftink_run this remote file)) = []
  | Arrived id =>
    exists n : nat,
      (n <= 201)%nat
      /\ filter is_request_or_sleep (fst (swiftink_run this remote file))
         = paced (HttpGet ((if dev (settings this)
                            then "https://example.com"
                            else "https://api.swiftink.io")
                           +++ "/transcripts/" +++ id)
                          (swiftinkToken (settings this)))
                 3000 n
  end
  /\ sleeps (fst (swiftink_run this remote file))
     = pred (status_requests (fst (swiftink_run this remote file)))
  /\ slept_ms (fst (swiftink_run this remote file))
     = (3000 * Z.of_nat (sleeps (fst (swiftink_run this remote file))))%Z
  /\ (slept_ms (fst (swiftink_run this remote file)) <= 603000)%Z.
Proof.
  split.
  - destruct (create_reply remote) as [id|e] eqn:Hcreate.
    + destruct (swiftink_run_shape this remote file id Hcreate)
        as (n & Hn & _ & Hlast & ->).
      exists n. split; [exact Hn|]. cbn [fst].
      rewrite filter_app, preamble_pacing. cbn [app].
      apply (waiting_rounds_pacing this n id).
      now apply final_round_pacing.
    + now rewrite (swiftink_creation_failure_run this remote file e Hcreate).
  - destruct (swiftink_run_counts this remote file)
      as [(-> & -> & -> & _) | (n & Hn & -> & -> & -> & _)];
      unfold sleep_time; cbn [pred]; repeat split; lia.
Qed.

(** X3: Once the job is created, the HTTP traffic of a run is the creation
    request followed by status requests that are all the same: a GET of
    [<base>/transcripts/<id>] with the token, where the base is the example
    host exactly when [dev] is set. *)
Theorem swiftink_requests_are_uniform `{DateHost}
        (this : TranscriptionEngine) (remote : Remote) (file : TFile) (id : string) :
  create_reply remote = Arrived id ->
  filter is_http (fst (swiftink_run this remote file))
  = HttpPost ((if dev (settings this)
               then "https://example.com" else "https://api.swiftink.io")
              +++ "/transcripts/")
             (swiftinkToken (settings this)) (translate (settings this))
    :: repeat (HttpGet ((if dev (settings this)
                         then "https://example.com" else "https://api.swiftink.io")
                        +++ "/transcripts/" +++ id)
                       (swiftinkToken (settings this)))
              (status_requests (fst (swiftink_run this remote file))).
Proof.
  intros Hcreate.
  destruct (swiftink_run_shape this remote file id Hcreate)
    as (n & Hn & _ & Hlast & ->).
  cbn [fst].
  destruct (waiting_rounds_counts this n id) as (Wr & _ & _).
  destruct (final_round_effects this _ _ Hlast) as (Fr & _ & _).
  destruct (preamble_counts this) as (Pr & _ & _).
  change (status_request this id :: ?l) with ([status_request this id] ++ l).
  rewrite !status_requests_app, Pr, Wr, Fr.
  replace (0 + (n + (status_requests [status_request this id] + 0)))%nat
    with (n + 1)%nat by (cbn; lia).
  rewrite repeat_app, !filter_app.
  rewrite preamble_http, waiting_rounds_http, final_round_http.
  reflexivity.
Qed.

(** X4: A complete reply that carries both fields ends the run at whichever
    request it answers, the 202nd included, where the counter is already
    past the budget: success is tested first.  The promise resolves with the
    text, or, with timestamps on, with what the formatter returns; if the
    formatter throws, the promise is rejected with what it threw. *)
Theorem swiftink_success_at_any_poll `{DateHost}
        (this : TranscriptionEngine) (remote : Remote) (file : TFile)
        (id : string) (n : nat) (t : Transcription)
        (txt : string) (segments : list TimestampedTextSegment) :
  create_reply remote = Arrived id ->
  waiting_for remote n ->
  (n <= 201)%nat ->
  poll_reply remote n = Arrived t ->
  status t = "complete" ->
  text t = Some txt ->
  text_segments t = Some segments ->
  snd (swiftink_run this remote file)
  = (if timestamps (settings this)
     then match segmentsToTimestampedString segments
                  (timestampFormat (settings this)) with
          | Gives formatted => Resolved formatted
          | Throws e => Rejected (RejRaised e)
          end
     else Resolved txt)
  /\ status_requests (fst (swiftink_run this remote file)) = S n.
Proof.
  intros Hcreate Hwaiting Hn Hreply Hstatus Htext Hsegments.
  destruct (swiftink_run_of_loop this remote file id Hcreate)
    as (url & w & Hpolls & Hcount & ->).
  change poll_budget with 202%nat.
  replace 202%nat with (n + S (201 - n))%nat by lia.
  destruct (poll_loop_keeps_waiting this remote n (S (201 - n)) url 0%Z w)
    as (w1 & -> & Hpolls1 & Hcount1).
  { intros k Hk. rewrite Hpolls. now apply Hwaiting. }
  { unfold max_tries. lia. }
  rewrite Hpolls in Hpolls1. cbn [Nat.add] in Hpolls1.
  rewrite <- Hpolls1 in Hreply.
  destruct (poll_loop_succeeds this remote (201 - n) url (0 + Z.of_nat n)%Z w1
              t txt segments Hreply Hstatus Htext Hsegments)
    as (w2 & -> & _ & Hcount2).
  destruct (timestamps (settings this));
    [destruct (segmentsToTimestampedString segments
                 (timestampFormat (settings this)))|];
    cbn [returned_or_thrown fst snd]; (split; [reflexivity | lia]).
Qed.

(** X5: A reply of [failed] or [validation_failed] that arrives among the first
    201 ends the run at once with the rejection of its own. *)
Theorem swiftink_remote_failure_within_budget `{DateHost}
        (this : TranscriptionEngine) (remote : Remote) (file : TFile)
        (id : string) (n : nat) (t : Transcription) :
  create_reply remote = Arrived id ->
  waiting_for remote n ->
  (n <= 200)%nat ->
  poll_reply remote n = Arrived t ->
  status t = "failed" \/ status t = "validation_failed" ->
  snd (swiftink_run this remote file)
  = Rejected (RejString (if (status t =? "failed")%string
                         then failed_to_transcribe else invalid_file))
  /\ status_requests (fst (swiftink_run this remote file)) = S n.
Proof.
  intros Hcreate Hwaiting Hn Hreply Hstatus.
  destruct (swiftink_run_of_loop this remote file id Hcreate)
    as (url & w & Hpolls & Hcount & ->).
  change poll_budget with 202%nat.
  replace 202%nat with (n + S (201 - n))%nat by lia.
  destruct (poll_loop_keeps_waiting this remote n (S (201 - n)) url 0%Z w)
    as (w1 & -> & Hpolls1 & Hcount1).
  { intros k Hk. rewrite Hpolls. now apply Hwaiting. }
  { unfold max_tries. lia. }
  rewrite Hpolls in Hpolls1. cbn [Nat.add] in Hpolls1.
  rewrite <- Hpolls1 in Hreply.
  destruct Hstatus as [Hfailed | Hinvalid].
  - destruct (poll_loop_failed this remote (201 - n) url (0 + Z.of_nat n)%Z w1
                t Hreply Hfailed) as (w2 & -> & _ & Hcount2).
    { unfold max_tries. lia. }
    rewrite Hfailed. cbn [fst snd]. split; [reflexivity | lia].
  - destruct (poll_loop_invalid this remote (201 - n) url (0 + Z.of_nat n)%Z w1
                t Hreply Hinvalid) as (w2 & -> & _ & Hcount2).
    { unfold max_tries. lia. }
    rewrite Hinvalid. cbn [fst snd]. split; [reflexivity | lia].
Qed.

(** X6: A status request that fails ends the run with the error it raised,
    unchanged, and no further request is made; this holds on the 202nd
    request too, where the time-out is not reached. *)
Theorem swiftink_transport_error_propagates `{DateHost}
        (this : TranscriptionEngine) (remote : Remote) (file : TFile)
        (id : string) (n : nat) (e : string) :
  create_reply remote = Arrived id ->
  waiting_for remote n ->
  (n <= 201)%nat ->
  poll_reply remote n = Raised e ->
  snd (swiftink_run this remote file) = Rejected (RejRaised e)
  /\ status_requests (fst (swiftink_run this remote file)) = S n.
Proof.
  intros Hcreate Hwaiting Hn Hreply.
  destruct (swiftink_run_of_loop this remote file id Hcreate)
    as (url & w & Hpolls & Hcount & ->).
  change poll_budget with 202%nat.
  replace 202%nat with (n + S (201 - n))%nat by lia.
  destruct (poll_loop_keeps_waiting this remote n (S (201 - n)) url 0%Z w)
    as (w1 & -> & Hpolls1 & Hcount1).
  { intros k Hk. rewrite Hpolls. now apply Hwaiting. }
  { unfold max_tries. lia. }
  rewrite Hpolls in Hpolls1. cbn [Nat.add] in Hpolls1.
  rewrite <- Hpolls1 in Hreply.
  destruct (poll_loop_transport_error this remote (201 - n) url
              (0 + Z.of_nat n)%Z w1 e Hreply) as (w2 & -> & _ & Hcount2).
  cbn [fst snd]. split; [reflexivity | lia].
Qed.

(** X7: If the job cannot be created, the run is the creation request and
    nothing else: no status request, no message, no console output even in
    debug mode; the promise is rejected with the error raised. *)
Theorem swiftink_creation_failure `{DateHost}
        (this : TranscriptionEngine) (remote : Remote) (file : TFile) (e : string) :
  create_reply remote = Raised e ->
  swiftink_run this remote file
  = ([HttpPost ((if dev (settings this)
                 then "https://example.com" else "https://api.swiftink.io")
                +++ "/transcripts/")
               (swiftinkToken (settings this)) (translate (settings this))],
     Rejected (RejRaised e))
  /\ status_requests (fst (swiftink_run this remote file)) = 0%nat
  /\ progress_messages (fst (swiftink_run this remote file)) = []
  /\ console_output (fst (swiftink_run this remote file)) = []
  /\ sleeps (fst (swiftink_run this remote file)) = 0%nat.
Proof.
  intros Hcreate.
  rewrite (swiftink_creation_failure_run this remote file e Hcreate).
  split; [reflexivity|]. repeat split; reflexivity.
Qed.

Lemma preamble_messages `{DateHost} (this : TranscriptionEngine) :
  progress_messages (preamble this)
  = (if (1 <=? verbosity (settings this))%Z then [uploading_message this] else [])
  /\ (debug (settings this) = false -> console_output (preamble this) = []).
Proof.
  unfold preamble, uploading_message.
  destruct (debug (settings this));
    destruct (1 <=? verbosity (settings this))%Z;
    destruct (has_status_bar this); split; try reflexivity; discriminate.
Qed.

(** X8: What the user is shown, once the job is created: nothing below
    verbosity 1; otherwise the uploading message and, exactly when the reply
    to the last status request is a complete job with both fields, the
    completion message after it.  That message is shown before the formatter
    is called, so it is there whenever the promise resolves, and also when
    the formatter then throws and the promise is rejected.  Both messages go
    to the status bar when there is one and are notices otherwise. *)
Theorem swiftink_progress_messages `{DateHost}
        (this : TranscriptionEngine) (remote : Remote) (file : TFile) (id : string) :
  create_reply remote = Arrived id ->
  progress_messages (fst (swiftink_run this remote file))
  = (if (1 <=? verbosity (settings this))%Z
     then uploading_message this
            :: (if answers_success
                     (poll_reply remote
                        (pred (status_requests (fst (swiftink_run this remote file)))))
                then [complete_message this]
                else [])
     else [])
  /\ (forall transcription,
         snd (swiftink_run this remote file) = Resolved transcription ->
         answers_success
           (poll_reply remote
              (pred (status_requests (fst (swiftink_run this remote file)))))
         = true).
Proof.
  intros Hcreate.
  destruct (swiftink_run_shape this remote file id Hcreate)
    as (n & _ & _ & Hlast & ->).
  cbn [fst snd].
  assert (Hrequests :
            status_requests
              (preamble this ++ waiting_rounds this n id
                 ++ status_request this id
                 :: fst (round_of this (Z.of_nat n) (poll_reply remote n)))
            = S n).
  { destruct (preamble_counts this) as (Pr & _ & _).
    destruct (waiting_rounds_counts this n id) as (Wr & _ & _).
    destruct (final_round_effects this _ _ Hlast) as (Fr & _ & _).
    change (status_request this id :: ?l) with ([status_request this id] ++ l).
    rewrite !status_requests_app, Pr, Wr, Fr. cbn. lia. }
  rewrite Hrequests. cbn [pred].
  destruct (final_round_messages this (Z.of_nat n) (poll_reply remote n))
    as (_ & Hshown & _ & Hreturned).
  split.
  - change (status_request this id :: ?l) with ([status_request this id] ++ l).
    unfold progress_messages. rewrite !filter_app.
    fold (progress_messages (preamble this)).
    fold (progress_messages (waiting_rounds this n id)).
    fold (progress_messages
            (fst (round_of this (Z.of_nat n) (poll_reply remote n)))).
    rewrite (proj1 (preamble_messages this)), waiting_rounds_show_nothing, Hshown.
    destruct (answers_success (poll_reply remote n));
      destruct (1 <=? verbosity (settings this))%Z; reflexivity.
  - intros transcription Hresolved.
    destruct (snd (round_of this (Z.of_nat n) (poll_reply remote n)))
      as [returned|r|] eqn:Hend; try discriminate Hresolved.
    now apply (Hreturned returned).
Qed.

(** X9: With [debug] off the adapter writes nothing to the console, however the
    run goes. *)
Theorem swiftink_console_is_silent_without_debug `{DateHost}
        (this : TranscriptionEngine) (remote : Remote) (file : TFile) :
  debug (settings this) = false ->
  console_output (fst (swiftink_run this remote file)) = [].
Proof.
  intros Hdebug.
  destruct (create_reply remote) as [id|e] eqn:Hcreate.
  - destruct (swiftink_run_shape this remote file id Hcreate)
      as (n & _ & _ & _ & ->).
    cbn [fst].
    change (status_request this id :: ?l) with ([status_request this id] ++ l).
    unfold console_output. rewrite !filter_app.
    fold (console_output (preamble this)).
    fold (console_output (waiting_rounds this n id)).
    fold (console_output (fst (round_of this (Z.of_nat n) (poll_reply remote n)))).
    rewrite (proj2 (preamble_messages this) Hdebug).
    rewrite (waiting_rounds_console this n id Hdebug).
    destruct (final_round_messages this (Z.of_nat n) (poll_reply remote n))
      as (_ & _ & -> & _); trivial.
  - now rewrite (swiftink_creation_failure_run this remote file e Hcreate).
Qed.

(** ** Whole runs of the event-driven adapter *)

(** While nothing settles the promise, the accumulator is the recognized
    fragments, each after a space. *)
Lemma feed_quiet_heard (events : list SdkEvent) :
  forall s,
    promise s = Unsettled ->
    forallb (fun ev => negb (settles ev)) events = true ->
    heard (feed events s)
    = heard s +++ concat_lines (map (String.append " ") (spoken events)).
Proof.
  induction events as [|ev rest IH]; intros [text p n tr] Hp Hquiet;
    cbn in Hp; subst p.
  - cbn. now rewrite append_empty_r.
  - cbn [forallb] in Hquiet. apply andb_true_iff in Hquiet as [Hev Hrest].
    cbn [feed fold_left].
    change (fold_left fire rest ?s) with (feed rest s).
    destruct ev as [[] result_text | [] details | ]; try discriminate Hev;
      cbn [fire handler recognized canceled stopContinuousRecognitionAsync
           log_effect run_reactions promise notified heard effects spoken];
      rewrite IH by (trivial; reflexivity);
      cbn [heard map concat_lines]; rewrite ?append_assoc; reflexivity.
Qed.

(** Once the promise is settled and its caller resumed, no event changes
    either, and nobody is resumed again. *)
Lemma feed_settled (events : list SdkEvent) :
  forall s,
    promise s <> Unsettled ->
    notified s = true ->
    promise (feed events s) = promise s
    /\ notifications (effects (feed events s)) = notifications (effects s).
Proof.
  induction events as [|ev rest IH]; intros [text p n tr] Hp Hn;
    cbn in Hp, Hn; subst n; [split; reflexivity|].
  cbn [feed fold_left].
  change (fold_left fire rest ?s) with (feed rest s).
  destruct p as [|value|reason]; [now elim Hp | |];
    destruct ev as [[] result_text | [] details | ];
    cbn [fire handler recognized canceled sessionStopped resolve reject_with
         stopContinuousRecognitionAsync log_effect run_reactions
         promise notified heard effects];
    (match goal with
     | |- context [feed rest ?s'] =>
       destruct (IH s' ltac:(cbn; discriminate) eq_refl) as [-> ->]
     end);
    unfold notifications; cbn -[trim];
    rewrite ?filter_app; cbn [filter is_notify app];
    rewrite ?app_nil_r; split; reflexivity.
Qed.

(** X10: The first event whose handler settles the promise decides how it ends,
    from the speech recognized before it; whatever fires later changes
    nothing, and the caller is resumed exactly once. *)
Theorem azure_first_settling_event_wins
        (this : TranscriptionEngine) (file : TFile)
        (quiet : list SdkEvent) (ev : SdkEvent) (later : list SdkEvent) :
  forallb (fun e => negb (settles e)) quiet = true ->
  settles ev = true ->
  snd (getTranscriptionAzure this (sample_service (quiet ++ ev :: later)) file)
  = settlement (String.concat " " (spoken quiet)) ev
  /\ notifications
       (fst (getTranscriptionAzure this (sample_service (quiet ++ ev :: later)) file))
     = [Notify (settlement (String.concat " " (spoken quiet)) ev)].
Proof.
  intros Hquiet Hev.
  unfold getTranscriptionAzure, azure_session.
  cbn [wav_ready fired sample_service fst snd].
  rewrite feed_app.
  destruct (feed_without_settling quiet (session_started this) eq_refl Hquiet)
    as (Hpromise & Hnotified & Heffects).
  pose proof (feed_quiet_heard quiet (session_started this) eq_refl Hquiet) as Hheard.
  cbn [session_started heard notified effects] in Hheard, Hnotified, Heffects.
  change ("" +++ ?x) with x in Hheard.
  assert (Hnone : notifications
                    ([make_recognizer this; StartContinuousRecognition]
                       ++ repeat StopContinuousRecognition
                            (length (filter is_cancellation quiet))) = []).
  { unfold notifications. rewrite no_notify_among_stops.
    unfold make_recognizer.
    destruct (azureLang (settings this) =? "auto")%string; reflexivity. }
  remember ([make_recognizer this; StartContinuousRecognition]
              ++ repeat StopContinuousRecognition
                   (length (filter is_cancellation quiet))) as base eqn:Hbase.
  clear Hbase.
  destruct (feed quiet (session_started this)) as [text p n tr].
  cbn [promise notified heard effects] in *. subst p n tr text.
  cbn [feed fold_left].
  change (fold_left fire later ?s) with (feed later s).
  destruct ev as [[] result_text | [] details | ]; try discriminate Hev;
    cbn [fire handler recognized canceled sessionStopped resolve reject_with
         stopContinuousRecognitionAsync log_effect run_reactions
         promise notified heard effects outcome_of];
    (match goal with
     | |- context [feed later ?s'] =>
       destruct (feed_settled later s' ltac:(cbn; discriminate) eq_refl) as [-> ->]
     end);
    cbn [promise effects outcome_of settlement];
    unfold notifications in *; rewrite ?filter_app, Hnone;
    rewrite ?trim_spaced; split; reflexivity.
Qed.

Lemma azure_first_settling_event_wins_witness :
  snd (getTranscriptionAzure quiet_engine
         (sample_service
            ([OnRecognized RecognizedSpeech "one"; OnCanceled EndOfStream "";
              OnRecognized RecognizedSpeech "two"]
               ++ OnRecognized NoMatch ""
               :: [OnRecognized RecognizedSpeech "three";
                   OnCanceled Error "late"; OnSessionStopped]))
         "memo.webm")
  = Resolved "one two".
Proof.
  apply (azure_first_settling_event_wins quiet_engine "memo.webm"
           [OnRecognized RecognizedSpeech "one"; OnCanceled EndOfStream "";
            OnRecognized RecognizedSpeech "two"]
           (OnRecognized NoMatch "")
           [OnRecognized RecognizedSpeech "three";
            OnCanceled Error "late"; OnSessionStopped]);
    reflexivity.
Defined.

(** Each event adds one stop request when it is a cancellation or the
    session-stopped event, settled promise or not, and none otherwise. *)
Lemma feed_stops (events : list SdkEvent) :
  forall s,
    stops (effects (feed events s))
    = stops (effects s) + length (filter asks_to_stop events).
Proof.
  induction events as [|ev rest IH]; intros [text p n tr]; [cbn; lia|].
  cbn [feed fold_left].
  change (fold_left fire rest ?s) with (feed rest s).
  rewrite IH.
  destruct ev as [[] result_text | [] details | ]; destruct p; destruct n;
    cbn [fire handler recognized canceled sessionStopped resolve reject_with
         stopContinuousRecognitionAsync log_effect run_reactions
         promise notified heard effects filter asks_to_stop length];
    rewrite ?stops_app; cbn; lia.
Qed.

(** X11: The session is asked to stop once for every cancellation and every
    session-stopped event that fires, before or after the promise is
    settled, and never on a recognition result. *)
Theorem azure_stop_requests
        (this : TranscriptionEngine) (file : TFile) (events : list SdkEvent) :
  stops (fst (getTranscriptionAzure this (sample_service events) file))
  = length (filter asks_to_stop events)
  /\ (forallb (fun e => negb (asks_to_stop e)) events = true <->
      stops (fst (getTranscriptionAzure this (sample_service events) file)) = 0%nat).
Proof.
  assert (Hcount : stops (fst (getTranscriptionAzure this (sample_service events) file))
                   = length (filter asks_to_stop events)).
  { unfold getTranscriptionAzure, azure_session.
    cbn [wav_ready fired sample_service fst].
    rewrite feed_stops. cbn [session_started effects].
    unfold make_recognizer.
    destruct (azureLang (settings this) =? "auto")%string; reflexivity. }
  split; [exact Hcount|]. rewrite Hcount.
  clear Hcount. induction events as [|ev rest IH]; [split; reflexivity|].
  cbn [forallb filter]. destruct (asks_to_stop ev); cbn [negb andb length].
  - split; discriminate.
  - exact IH.
Qed.

(** Events only add to the effects, and none of what they add creates a
    recognizer or starts recognition. *)
Lemma feed_keeps_setup (events : list SdkEvent) :
  forall s,
    exists added,
      effects (feed events s) = effects s ++ added
      /\ filter is_setup added = [].
Proof.
  induction events as [|ev rest IH]; intros s.
  - exists []. now rewrite app_nil_r.
  - cbn [feed fold_left].
    change (fold_left fire rest ?s) with (feed rest s).
    destruct (IH (fire s ev)) as (added & -> & Hadded).
    assert (Hfire : exists step, effects (fire s ev) = effects s ++ step
                                 /\ filter is_setup step = []).
    { destruct s as [text p n tr].
      destruct ev as [[] result_text | [] details | ]; destruct p; destruct n;
        cbn [fire handler recognized canceled sessionStopped resolve reject_with
             stopContinuousRecognitionAsync log_effect run_reactions
             promise notified heard effects];
        rewrite <- ?app_assoc;
        solve [ eexists; split; [reflexivity | reflexivity]
              | exists []; rewrite app_nil_r; split; reflexivity ]. }
    destruct Hfire as (step & -> & Hstep).
    exists (step ++ added). rewrite <- app_assoc. split; [reflexivity|].
    now rewrite filter_app, Hstep, Hadded.
Qed.

(** X12: If reading or converting the audio fails, the promise is rejected with
    that error and no recognizer is created.  Otherwise exactly one
    recognizer is created and started, before anything else: with language
    detection between en-US and uk-UA when [azureLang] is [auto], and with
    [azureLang] as its fixed language for every other value. *)
Theorem azure_recognizer_setup
        (this : TranscriptionEngine) (service : SpeechService) (file : TFile) :
  match wav_ready service with
  | Raised e =>
    getTranscriptionAzure this service file = ([], Rejected (RejRaised e))
  | Arrived _ =>
    exists rest,
      fst (getTranscriptionAzure this service file)
      = (if (azureLang (settings this) =? "auto")%string
         then CreateRecognizer ["en-US"; "uk-UA"] None
         else CreateRecognizer [] (Some (azureLang (settings this))))
          :: StartContinuousRecognition :: rest
      /\ filter is_setup rest = []
  end.
Proof.
  unfold getTranscriptionAzure, azure_session.
  destruct (wav_ready service) as [[]|e]; [|reflexivity].
  destruct (feed_keeps_setup (fired service) (session_started this))
    as (added & Heffects & Hadded).
  exists added. cbn [fst]. rewrite Heffects.
  cbn [session_started effects app]. unfold make_recognizer. auto.
Qed.

(** ** The dispatcher and the adapters together *)

(** X13: With [debug] off the dispatcher adds nothing to a registered adapter's
    run: the same effects, the same outcome. *)
Theorem dispatcher_is_transparent_without_debug
        (this : TranscriptionEngine) (methods : Backend -> TFile -> Run)
        (elapsed : Z) (file : TFile) (b : Backend) :
  debug (settings this) = false ->
  own_property transcription_engines (transcription_engine (settings this)) = Some b ->
  getTranscription this methods elapsed file = methods b file.
Proof.
  intros Hdebug Hregistered.
  unfold getTranscription, get_property. rewrite Hregistered, Hdebug.
  destruct (methods b file) as [did [transcription | r | ]];
    cbn [app]; rewrite ?app_nil_r; reflexivity.
Qed.

Lemma dispatcher_is_transparent_without_debug_witness :
  getTranscription quiet_engine (sample_methods quiet_engine) 7 "memo.webm"
  = sample_methods quiet_engine Swiftink "memo.webm".
Proof.
  apply (dispatcher_is_transparent_without_debug quiet_engine
           (sample_methods quiet_engine) 7 "memo.webm" Swiftink);
    reflexivity.
Defined.



Lemma status_requests_of_console (tr : list Effect) :
  forallb is_diagnostic tr = true -> status_requests tr = 0%nat.
Proof.
  unfold status_requests.
  induction tr as [|e tr IH]; [reflexivity|].
  cbn [forallb]. intros Hall. apply andb_true_iff in Hall as [He Hall].
  destruct e; try discriminate He; cbn; auto.
Qed.

(** X15: With [swiftink] selected, whatever the service does and whatever the
    other two adapters would do, the dispatcher's promise settles, as the
    create-then-poll adapter's does, after at most 202 status requests. *)
Theorem dispatcher_on_swiftink_always_settles `{DateHost}
        (this : TranscriptionEngine) (remote : Remote) (service : SpeechService)
        (whisper : TFile -> Run) (elapsed : Z) (file : TFile) :
  transcription_engine (settings this) = "swiftink" ->
  snd (getTranscription this (engine_methods this remote service whisper)
                        elapsed file)
  = snd (swiftink_run this remote file)
  /\ snd (getTranscription this (engine_methods this remote service whisper)
                           elapsed file) <> Pending
  /\ (status_requests
        (fst (getTranscription this (engine_methods this remote service whisper)
                               elapsed file)) <= 202)%nat.
Proof.
  intros Hname.
  destruct (swiftink_run_counts this remote file) as [Hzero | Hsome].
  - destruct Hzero as (Hreq & _ & _ & Hsettled).
    unfold getTranscription, get_property. rewrite Hname.
    cbn [transcription_engines own_property String.eqb Ascii.eqb Bool.eqb
         engine_methods].
    destruct (swiftink_run this remote file) as [did [transcription | r | ]];
      cbn [fst snd] in *; try (now elim Hsettled);
      destruct (debug (settings this));
      repeat split; try discriminate;
      rewrite ?status_requests_app, Hreq; cbn; lia.
  - destruct Hsome as (n & Hn & Hreq & _ & _ & Hsettled).
    unfold getTranscription, get_property. rewrite Hname.
    cbn [transcription_engines own_property String.eqb Ascii.eqb Bool.eqb
         engine_methods].
    destruct (swiftink_run this remote file) as [did [transcription | r | ]];
      cbn [fst snd] in *; try (now elim Hsettled);
      destruct (debug (settings this));
      repeat split; try discriminate;
      rewrite ?status_requests_app, Hreq; cbn; lia.
Qed.

Lemma dispatcher_on_swiftink_always_settles_witness :
  snd (getTranscription (sample_engine "swiftink" false)
         (@engine_methods demo (sample_engine "swiftink" false)
            (fails_after 500) (sample_service []) (fun _ => ([], Pending)))
         7 "memo.webm")
  <> Pending.
Proof.
  apply (@dispatcher_on_swiftink_always_settles demo
           (sample_engine "swiftink" false) (fails_after 500)
           (sample_service []) (fun _ => ([], Pending)) 7 "memo.webm").
  reflexivity.
Defined.

(** ** The one-shot adapter *)

(** X16: The transcript is the same, and so is everything the adapter does,
    whether the response carries it as its text or, with a text that is not
    a string, in the [text] field of its JSON body; when the text is a
    string the JSON body is not looked at, not even one that would raise. *)
Theorem whisper_same_transcript_from_either_shape
        (this : TranscriptionEngine) (file : TFile)
        (audio : Awaited (list Byte.byte))
        (encode : list Byte.byte -> Awaited (list Byte.byte * string))
        (transcription : string) (json : JsonText) :
  getTranscriptionWhisperASR this
    {| read_binary := audio; payloadGenerator := encode;
       post_reply := Arrived {| response_text := Some transcription;
                                json_text := json |} |} file
  = getTranscriptionWhisperASR this
      {| read_binary := audio; payloadGenerator := encode;
         post_reply := Arrived {| response_text := None;
                                  json_text := JsonTextIs (Some transcription) |} |}
      file
  /\ (forall bytes body boundary,
         audio = Arrived bytes ->
         encode bytes = Arrived (body, boundary) ->
         snd (getTranscriptionWhisperASR this
                {| read_binary := audio; payloadGenerator := encode;
                   post_reply := Arrived {| response_text := Some transcription;
                                            json_text := json |} |} file)
         = WhisperResolved (Some transcription)).
Proof.
  unfold getTranscriptionWhisperASR. cbn [read_binary payloadGenerator post_reply
                                          response_text json_text].
  split.
  - destruct audio as [bytes|e]; [|reflexivity].
    destruct (encode bytes) as [[body boundary]|e]; reflexivity.
  - intros bytes body boundary -> ->. reflexivity.
Qed.

(** X17: Whatever the collaborators do, at most one request is sent, always to
    [<whisperASRUrl>/asr?task=transcribe&language=en].  A rejection is the
    error that was raised, unchanged; it is written to the console exactly
    when [debug] is on and the request had been sent, so a failure to read
    or to encode the file is never logged. *)
Theorem whisper_errors_propagate
        (this : TranscriptionEngine) (service : WhisperService) (file : TFile) :
  (exists contentType body,
      filter is_post (fst (getTranscriptionWhisperASR this service file))
      = [PostForm (whisperASRUrl (settings this)
                   +++ "/asr?task=transcribe&language=en") contentType body])
  \/ (filter is_post (fst (getTranscriptionWhisperASR this service file)) = []
      /\ filter is_error_log (fst (getTranscriptionWhisperASR this service file)) = []
      /\ exists e,
          snd (getTranscriptionWhisperASR this service file)
          = WhisperRejected (RejRaised e)
          /\ (read_binary service = Raised e
              \/ exists bytes, read_binary service = Arrived bytes
                               /\ payloadGenerator service bytes = Raised e)).
Proof.
  unfold getTranscriptionWhisperASR, whisper_url.
  destruct (read_binary service) as [bytes|e].
  2: { right. repeat split. exists e. split; [reflexivity | now left]. }
  destruct (payloadGenerator service bytes) as [[body boundary]|e] eqn:Hencode.
  2: { right. repeat split. exists e. split; [reflexivity|].
       right. exists bytes. now split. }
  left. do 2 eexists.
  destruct (post_reply service) as [[[transcription|] [value|error]]|e];
    destruct (debug (settings this)); reflexivity.
Qed.

(** X18: After the request was sent, every rejection is logged once when [debug]
    is on and not at all when it is off, with the very value the promise is
    rejected with: the request's own error, or what reading the JSON body
    raised. *)
Theorem whisper_logs_what_it_rejects_with
        (this : TranscriptionEngine) (file : TFile)
        (bytes body : list Byte.byte) (boundary : string)
        (encode : list Byte.byte -> Awaited (list Byte.byte * string))
        (reply : Awaited Response) (r : Rejection) :
  encode bytes = Arrived (body, boundary) ->
  snd (getTranscriptionWhisperASR this
         {| read_binary := Arrived bytes; payloadGenerator := encode;
            post_reply := reply |} file) = WhisperRejected r ->
  filter is_error_log
    (fst (getTranscriptionWhisperASR this
            {| read_binary := Arrived bytes; payloadGenerator := encode;
               post_reply := reply |} file))
  = (if debug (settings this) then [LogError r] else [])
  /\ ((exists e, reply = Raised e /\ r = RejRaised e)
      \/ (exists response, reply = Arrived response
                           /\ response_text response = None
                           /\ json_text response = JsonRaises r)).
Proof.
  unfold getTranscriptionWhisperASR.
  cbn [read_binary payloadGenerator post_reply].
  intros ->.
  destruct reply as [[[transcription|] [value|error]]|e];
    cbn [response_text json_text fst snd]; intros [= <-];
    (split; [destruct (debug (settings this)); reflexivity|]).
  - right. eexists. repeat split.
  - left. now exists e.
Qed.

Lemma whisper_logs_what_it_rejects_with_witness :
  filter is_error_log
    (fst (getTranscriptionWhisperASR (sample_engine "whisper_asr" false)
            {| read_binary := Arrived [];
               payloadGenerator := fun audio => Arrived (audio, "boundary");
               post_reply := Arrived {| response_text := None;
                                        json_text := JsonRaises RejTypeError |} |}
            "memo.webm"))
  = [LogError RejTypeError].
Proof.
  apply (whisper_logs_what_it_rejects_with (sample_engine "whisper_asr" false)
           "memo.webm" [] [] "boundary" (fun audio => Arrived (audio, "boundary"))
           (Arrived {| response_text := None; json_text := JsonRaises RejTypeError |})
           RejTypeError); reflexivity.
Defined.

(** ** The formatter at its edges *)

Lemma append_is_empty (a b : string) : a +++ b = "" -> a = "" /\ b = "".
Proof. destruct a; cbn; [auto | discriminate]. Qed.

(** X19: The formatter returns the empty string for no segments and for
    nothing else: every segment contributes at least its separators and line
    feed, whatever [format] returns and however empty its text is.  So
    whatever the formatter returns is at least 6 characters long per
    segment. *)
Theorem formatter_output_is_empty_only_without_segments `{DateHost}
        (segments : list TimestampedTextSegment) (pattern : string) :
  (segmentsToTimestampedString segments pattern = Gives "" <-> segments = [])
  /\ (forall output,
         segmentsToTimestampedString segments pattern = Gives output ->
         (6 * length segments <= String.length output)%nat).
Proof.
  assert (Hlen : forall a b, String.length (a +++ b)
                             = (String.length a + String.length b)%nat).
  { induction a as [|c a IH]; intros b; cbn; [reflexivity | now rewrite IH]. }
  assert (Hbound : forall l output,
             segmentsToTimestampedString l pattern = Gives output ->
             (6 * length l <= String.length output)%nat).
  { intros l output. unfold segmentsToTimestampedString.
    rewrite formatter_loop_from.
    revert output. induction l as [|segment rest IH]; intros output.
    - cbn. intros [= <-]. cbn. lia.
    - cbn [map all_lines]. unfold spec_line at 1.
      destruct (rendered_bound (seg_start segment) pattern) as [a|e];
        [|discriminate].
      destruct (rendered_bound (seg_end segment) pattern) as [b|e];
        [|discriminate].
      destruct (all_lines (map (spec_line pattern) rest)) as [others|e];
        [|discriminate].
      cbn [concatenated followed_by concat_lines]. intros [= <-].
      specialize (IH (concat_lines others) eq_refl).
      change ("" +++ ?x) with x.
      unfold line_of. rewrite !Hlen. cbn [String.length length] in *.
      change (String.length nl) with 1%nat. lia. }
  split; [|exact (Hbound segments)].
  split; [|now intros ->].
  intros Hempty. apply Hbound in Hempty.
  destruct segments; [reflexivity | cbn in Hempty; lia].
Qed.

(** ** The further properties on sample runs *)

Lemma swiftink_requests_are_uniform_witness :
  filter is_http
    (fst (swiftink_run quiet_engine (then_replies 2 (Arrived sample_complete))
            "memo.webm"))
  = [HttpPost "https://example.com/transcripts/" "token" true;
     HttpGet "https://example.com/transcripts/42" "token";
     HttpGet "https://example.com/transcripts/42" "token";
     HttpGet "https://example.com/transcripts/42" "token"].
Proof.
  rewrite (@swiftink_requests_are_uniform demo quiet_engine
             (then_replies 2 (Arrived sample_complete)) "memo.webm" "42" eq_refl).
  reflexivity.
Defined.

Lemma swiftink_success_at_any_poll_witness :
  waiting_for (then_replies 201 (Arrived sample_complete)) 201
  /\ snd (swiftink_run quiet_engine (then_replies 201 (Arrived sample_complete))
            "memo.webm")
     = Resolved ("00:00 - 00:01: hello" +++ nl +++ "00:01 - 02:05: world" +++ nl)
  /\ status_requests
       (fst (swiftink_run quiet_engine (then_replies 201 (Arrived sample_complete))
               "memo.webm"))
     = 202%nat.
Proof.
  assert (Hwaiting : waiting_for (then_replies 201 (Arrived sample_complete)) 201)
    by (apply waiting_for_check; vm_compute; reflexivity).
  split; [exact Hwaiting|].
  apply (@swiftink_success_at_any_poll demo quiet_engine
           (then_replies 201 (Arrived sample_complete)) "memo.webm" "42" 201
           sample_complete "hello world" sample_segments);
    [reflexivity | exact Hwaiting | lia | reflexivity | reflexivity
     | reflexivity | reflexivity].
Defined.

Lemma swiftink_remote_failure_within_budget_witness :
  snd (swiftink_run quiet_engine
         (then_replies 200 (Arrived (bare "validation_failed"))) "memo.webm")
  = Rejected (RejString invalid_file)
  /\ status_requests
       (fst (swiftink_run quiet_engine
               (then_replies 200 (Arrived (bare "validation_failed"))) "memo.webm"))
     = 201%nat.
Proof.
  apply (@swiftink_remote_failure_within_budget demo quiet_engine
           (then_replies 200 (Arrived (bare "validation_failed"))) "memo.webm"
           "42" 200 (bare "validation_failed"));
    [reflexivity | apply waiting_for_check; vm_compute; reflexivity | lia
     | reflexivity | right; reflexivity].
Defined.

Lemma swiftink_transport_error_propagates_witness :
  snd (swiftink_run quiet_engine (then_replies 201 (Raised "offline")) "memo.webm")
  = Rejected (RejRaised "offline")
  /\ status_requests
       (fst (swiftink_run quiet_engine (then_replies 201 (Raised "offline"))
               "memo.webm"))
     = 202%nat.
Proof.
  apply (@swiftink_transport_error_propagates demo quiet_engine
           (then_replies 201 (Raised "offline")) "memo.webm" "42" 201 "offline");
    [reflexivity | apply waiting_for_check; vm_compute; reflexivity | lia
     | reflexivity].
Defined.

Lemma swiftink_creation_failure_witness :
  swiftink_run (sample_engine "swiftink" true) unreachable "memo.webm"
  = ([HttpPost "https://api.swiftink.io/transcripts/" "token" false],
     Rejected (RejRaised "net::ERR_CONNECTION_REFUSED")).
Proof.
  apply (@swiftink_creation_failure demo (sample_engine "swiftink" true)
           unreachable "memo.webm" "net::ERR_CONNECTION_REFUSED").
  reflexivity.
Defined.

Lemma swiftink_progress_messages_witness :
  progress_messages
    (fst (swiftink_run unrenderable_engine
            (then_replies 2 (Arrived sample_complete)) "memo.webm"))
  = [NewNotice "Uploading file to Swiftink..." 3000;
     NewNotice "Swiftink finished transcribing" 3000]
  /\ snd (swiftink_run unrenderable_engine
            (then_replies 2 (Arrived sample_complete)) "memo.webm")
     = Rejected (RejRaised unescaped_letter).
Proof.
  split; [|vm_compute; reflexivity].
  destruct (@swiftink_progress_messages demo unrenderable_engine
              (then_replies 2 (Arrived sample_complete)) "memo.webm" "42" eq_refl)
    as [Hshown _].
  rewrite Hshown. vm_compute. reflexivity.
Defined.

Lemma swiftink_console_is_silent_without_debug_witness :
  console_output
    (fst (swiftink_run quiet_engine (then_replies 2 (Arrived (bare "failed")))
            "memo.webm"))
  = [].
Proof.
  apply (@swiftink_console_is_silent_without_debug demo quiet_engine
           (then_replies 2 (Arrived (bare "failed"))) "memo.webm").
  reflexivity.
Defined.
